(** * Quant backtest lab: the backtest engine and the Python strategy sandbox

    A shallow embedding of [backend/Engine/BacktestEngine.cs] ([RunAsync],
    [IntersectDates]) and of the strategy service
    ([BuildSignalsByDateAsync], [ValidateParams], [IsWithinDepthAndSize]).

    Conventions of the embedding.
    - C# [int] is a [Z] wrapped to 32 bits by [int32] after each addition or
      subtraction the source performs; [%] on [int] is [Z.rem].
    - C# [decimal] is a [Z] counting units of 10^-28 (every decimal value is
      a multiple of 10^-28).  An operation computes the exact result and
      rounds it, half to even, at the largest scale (at most 28) whose
      mantissa fits 96 bits; [None] stands for the exception thrown when no
      scale fits ([OverflowException]) or the divisor is zero.
    - [DateOnly] is its day number (days since 0001-01-01), as in .NET.
    - A thrown exception is the [Throw] constructor of [Outcome].
    - Strings are sequences of ASCII characters: [Trim], [ToUpperInvariant]
      and [IsNullOrWhiteSpace] are those of .NET on code points below 128.
    - Dictionaries keyed by symbol or date are [gmap]s, except
      [barsBySymbol], whose enumeration order the source uses: it is an
      association list in insertion order.  A [HashSet] of dates is a
      [gset]; a [HashSet] of symbols is the list of its elements in
      insertion order.
    - The collaborators (market data, file system, the python process, the
      cancellation token) are fields of an environment record.
    - The loop's numeric accounting (NAV, drawdown, benchmark NAV, turnover,
      the statistics snapshots, the transaction records) never feeds back
      into the weights or into the rebalance schedule; it is left out of the
      loop state, and so are the exceptions its arithmetic could raise.  A
      progress event is reduced to its date. *)

From Stdlib Require Import ZArith Lia String Ascii List.
From stdpp Require Import base gmap strings list sorting.

Set Warnings "-register-all".
Open Scope Z_scope.

(** ** Exceptions *)

Inductive Exn : Type :=
| InvalidOperationException (message : string)
| OperationCanceledException
| ArgumentOutOfRangeException
| KeyNotFoundException
| ArgumentException
| OverflowException
| CollaboratorException (message : string).

Inductive Outcome (A : Type) : Type :=
| Ok (a : A)
| Throw (e : Exn).
Arguments Ok {A} a.
Arguments Throw {A} e.

Definition obind {A B : Type} (m : Outcome A) (k : A -> Outcome B) : Outcome B :=
  match m with
  | Ok a => k a
  | Throw e => Throw e
  end.

Notation "'let!' x ':=' m 'in' k" := (obind m (fun x => k))
  (at level 10, x pattern, m at level 100, k at level 200).

Definition of_option {A : Type} (e : Exn) (o : option A) : Outcome A :=
  match o with
  | Some a => Ok a
  | None => Throw e
  end.

(** The value of a computation known to return one. *)
Definition value_or {A : Type} (fallback : A) (m : Outcome A) : A :=
  match m with
  | Ok a => a
  | Throw _ => fallback
  end.

Fixpoint outcome_map {A B : Type} (f : A -> Outcome B) (l : list A) : Outcome (list B) :=
  match l with
  | [] => Ok []
  | x :: l' =>
      let! y := f x in
      let! ys := outcome_map f l' in
      Ok (y :: ys)
  end.

(** ** Machine integers *)

Definition int32 (x : Z) : Z := (x + 2 ^ 31) mod 2 ^ 32 - 2 ^ 31.

Definition Math_Max (a b : Z) : Z := if a <? b then b else a.

(** ** Strings *)

Definition IsWhiteSpace (c : ascii) : bool :=
  let n := nat_of_ascii c in
  Nat.eqb n 32 || (Nat.leb 9 n && Nat.leb n 13).

Fixpoint TrimStart (s : list ascii) : list ascii :=
  match s with
  | [] => []
  | c :: s' => if IsWhiteSpace c then TrimStart s' else s
  end.

Definition TrimEnd (s : list ascii) : list ascii := rev (TrimStart (rev s)).

Definition Trim (s : string) : string :=
  string_of_list_ascii (TrimEnd (TrimStart (list_ascii_of_string s))).

Definition ToUpperChar (c : ascii) : ascii :=
  let n := nat_of_ascii c in
  if Nat.leb 97 n && Nat.leb n 122 then ascii_of_nat (n - 32) else c.

Definition ToUpperInvariant (s : string) : string :=
  string_of_list_ascii (map ToUpperChar (list_ascii_of_string s)).

Definition IsNullOrWhiteSpace (s : option string) : bool :=
  match s with
  | None => true
  | Some s => forallb IsWhiteSpace (list_ascii_of_string s)
  end.

(** [Enumerable.Distinct]: first occurrences, in order; [seen] is the
    hash set of the elements already yielded. *)
Fixpoint Distinct_from (seen : list string) (l : list string) : list string :=
  match l with
  | [] => []
  | x :: l' =>
      if bool_decide (x ∈ seen) then Distinct_from seen l'
      else x :: Distinct_from (x :: seen) l'
  end.

Definition Distinct (l : list string) : list string := Distinct_from [] l.

(** ** Decimals *)

Abbreviation decimal := Z.

Definition DEC_UNIT : Z := 10 ^ 28.
Definition DEC_MAX_MANTISSA : Z := 2 ^ 96 - 1.

Definition dec_of_int (n : Z) : Z := n * DEC_UNIT.

Definition decimal_MinValue : Z := - (DEC_MAX_MANTISSA * DEC_UNIT).

(** [num / den] rounded to an integer, half to even ([0 <= num], [0 < den]). *)
Definition round_half_even (num den : Z) : Z :=
  let q := num / den in
  let r := num mod den in
  if 2 * r <? den then q
  else if den <? 2 * r then q + 1
  else if Z.even q then q else q + 1.

(** The non-negative rational [num / den], given in units of 10^-28,
    rounded at the largest scale [k <= scale] whose mantissa fits. *)
Fixpoint dec_fit (scale : nat) (num den : Z) : option Z :=
  let m := round_half_even (num * 10 ^ Z.of_nat scale) (den * DEC_UNIT) in
  if m <=? DEC_MAX_MANTISSA then Some (m * 10 ^ (28 - Z.of_nat scale))
  else match scale with
       | O => None
       | S scale' => dec_fit scale' num den
       end.

Definition dec_round (num den : Z) : option Z :=
  (fun m => Z.sgn num * Z.sgn den * m) <$> dec_fit 28 (Z.abs num) (Z.abs den).

(** [a / b]; the source guards every division against a zero divisor. *)
Definition dec_div (a b : Z) : option Z :=
  if b =? 0 then None else dec_round (a * DEC_UNIT) b.

(** [a - b] *)
Definition dec_sub (a b : Z) : option Z := dec_round (a - b) 1.

(** [decimal.MinValue / 2m], the score of a symbol the custom signals omit. *)
Definition missing_score : Z :=
  default 0 (dec_div decimal_MinValue (dec_of_int 2)).

(** ** Dates *)

Abbreviation DateOnly := Z.

Definition digit_char (d : Z) : ascii := ascii_of_nat (48 + Z.to_nat d).

Definition pad2 (n : Z) : list ascii := [digit_char (n / 10 mod 10); digit_char (n mod 10)].
Definition pad4 (n : Z) : list ascii :=
  [digit_char (n / 1000 mod 10); digit_char (n / 100 mod 10);
   digit_char (n / 10 mod 10); digit_char (n mod 10)].

(** Year, month and day of a day number (proleptic Gregorian calendar). *)
Definition civil_of_day_number (n : Z) : Z * Z * Z :=
  let z := n + 306 in
  let era := z / 146097 in
  let doe := z - era * 146097 in
  let yoe := (doe - doe / 1460 + doe / 36524 - doe / 146096) / 365 in
  let doy := doe - (365 * yoe + yoe / 4 - yoe / 100) in
  let mp := (5 * doy + 2) / 153 in
  let d := doy - (153 * mp + 2) / 5 + 1 in
  let m := if mp <? 10 then mp + 3 else mp - 9 in
  let y := yoe + era * 400 + (if m <=? 2 then 1 else 0) in
  (y, m, d).

(** [date.ToString("yyyy-MM-dd")]. *)
Definition DateOnly_ToString (n : Z) : string :=
  let '(y, m, d) := civil_of_day_number n in
  string_of_list_ascii (pad4 y ++ ["-"%char] ++ pad2 m ++ ["-"%char] ++ pad2 d).

(** ** Price bars and LINQ operators *)

Record PriceBar : Type := mkPriceBar {
  Date : DateOnly;
  Open : decimal;
  High : decimal;
  Low : decimal;
  Close : decimal;
  Volume : decimal
}.

(** Stable insertion by an integer key: [x] goes before the first element
    whose key is not smaller. *)
Fixpoint insert_by {A : Type} (key : A -> Z) (x : A) (l : list A) : list A :=
  match l with
  | [] => [x]
  | y :: l' => if key x <=? key y then x :: l else y :: insert_by key x l'
  end.

(** [Enumerable.OrderBy]: a stable sort, ascending in the key. *)
Definition OrderBy {A : Type} (key : A -> Z) (l : list A) : list A :=
  foldr (insert_by key) [] l.

(** [Enumerable.OrderByDescending]: a stable sort, descending in the key. *)
Definition OrderByDescending {A : Type} (key : A -> Z) (l : list A) : list A :=
  OrderBy (fun a => - key a) l.

(** [Enumerable.Take] and [Enumerable.TakeLast] with an [int] count. *)
Definition Take {A : Type} (count : Z) (l : list A) : list A :=
  take (Z.to_nat count) l.

Definition TakeLast {A : Type} (count : Z) (l : list A) : list A :=
  drop (length l - Z.to_nat count)%nat l.

(** [Enumerable.ToDictionary]: a repeated key throws. *)
Fixpoint ToDictionary_into {A K V : Type} `{Countable K}
    (key : A -> K) (value : A -> V) (l : list A) (acc : gmap K V)
  : Outcome (gmap K V) :=
  match l with
  | [] => Ok acc
  | x :: l' =>
      match acc !! key x with
      | Some _ => Throw ArgumentException
      | None => ToDictionary_into key value l' (<[key x := value x]> acc)
      end
  end.

Definition ToDictionary {A K V : Type} `{Countable K}
    (key : A -> K) (value : A -> V) (l : list A) : Outcome (gmap K V) :=
  ToDictionary_into key value l ∅.

(** [IntersectDates]: the hash sets of the collections, the first one
    intersected in place with each of the others, then sorted. *)
Definition IntersectDates (dateCollections : list (list DateOnly)) : list DateOnly :=
  let sets : list (gset Z) := map list_to_set dateCollections in
  match sets with
  | [] => []
  | first :: others =>
      let intersection := foldl (fun acc set => acc ∩ set) first others in
      OrderBy id (elements intersection)
  end.

(** ** Strategy parameters: JSON values *)

Inductive JsonElement : Type :=
| JsonUndefined
| JsonNull
| JsonTrue
| JsonFalse
| JsonNumber (text : string)
| JsonString (s : string)
| JsonArray (items : list JsonElement)
| JsonObject (properties : list (string * JsonElement)).

(** The local function [Traverse] of [IsWithinDepthAndSize].  The captured
    counter [nodesVisited] is threaded through; [All] stops at the first
    child that fails. *)
Fixpoint Traverse (maxDepth maxNodes : Z) (current : JsonElement) (depth : Z)
    (nodesVisited : Z) {struct current} : bool * Z :=
  let nodesVisited := int32 (nodesVisited + 1) in
  if (maxNodes <? nodesVisited) || (maxDepth <? depth) then (false, nodesVisited)
  else
    match current with
    | JsonObject properties =>
        (fix all (ps : list (string * JsonElement)) (visited : Z) : bool * Z :=
           match ps with
           | [] => (true, visited)
           | p :: ps' =>
               let '(ok, visited') :=
                 Traverse maxDepth maxNodes (snd p) (int32 (depth + 1)) visited in
               if ok then all ps' visited' else (false, visited')
           end) properties nodesVisited
    | JsonArray items =>
        (fix all (xs : list JsonElement) (visited : Z) : bool * Z :=
           match xs with
           | [] => (true, visited)
           | x :: xs' =>
               let '(ok, visited') :=
                 Traverse maxDepth maxNodes x (int32 (depth + 1)) visited in
               if ok then all xs' visited' else (false, visited')
           end) items nodesVisited
    | _ => (true, nodesVisited)
    end.

Definition IsWithinDepthAndSize (element : JsonElement) (maxDepth maxNodes : Z) : bool :=
  fst (Traverse maxDepth maxNodes element 0 0).

(** Nesting depth of a value: the depth of its deepest node, the value
    itself being at depth 0 (the convention of [Traverse]). *)
Fixpoint nesting_depth (v : JsonElement) : nat :=
  match v with
  | JsonObject properties =>
      (fix deepest (ps : list (string * JsonElement)) : nat :=
         match ps with
         | [] => O
         | p :: ps' => Nat.max (S (nesting_depth (snd p))) (deepest ps')
         end) properties
  | JsonArray items =>
      (fix deepest (xs : list JsonElement) : nat :=
         match xs with
         | [] => O
         | x :: xs' => Nat.max (S (nesting_depth x)) (deepest xs')
         end) items
  | _ => O
  end.

Definition dquote : string := String (ascii_of_nat 34) EmptyString.

(** [ValidateParams]: [None] is the source's [null] (no error). *)
Fixpoint ValidateParams_each (entries : list (string * JsonElement)) : option string :=
  match entries with
  | [] => None
  | (key, value) :: rest =>
      if (120 <? Z.of_nat (String.length key))%Z then
        Some ("Param key " +:+ dquote +:+ key +:+ dquote +:+ " is too long (max 120 chars).")
      else if negb (IsWithinDepthAndSize value 8 10000) then
        Some ("Param " +:+ dquote +:+ key +:+ dquote +:+ " exceeds supported JSON complexity.")
      else ValidateParams_each rest
  end.

Definition ValidateParams (strategyParams : option (list (string * JsonElement)))
  : option string :=
  match strategyParams with
  | None => None
  | Some entries =>
      if 200 <? Z.of_nat (length entries) then Some "Too many strategy params (max 200)."
      else ValidateParams_each entries
  end.

(** ** Run configuration and the scoring summary *)

Record BacktestConfig : Type := mkBacktestConfig {
  Symbols : list string;
  StartDate : DateOnly;
  EndDate : DateOnly;
  InitialCapital : decimal;
  LookbackDays : Z;
  RebalanceFrequencyDays : Z;
  LongCount : Z;
  ShortCount : Z;
  StrategyCode : option string;
  StrategyParams : option (list (string * JsonElement));
  FallbackToBuiltinOnPythonError : bool
}.

Record PythonExecutionSummary : Type := mkPythonExecutionSummary {
  Requested : bool;
  Executed : bool;
  Succeeded : bool;
  UsedFallback : bool;
  Message : string;
  SignalDates : Z;
  StderrSnippet : option string;
  ErrorType : option string
}.

(** Scores by date key, then by symbol. *)
Abbreviation SignalTable := (gmap string (gmap string Z)).

Record PythonSignalsResult : Type := mkPythonSignalsResult {
  Execution : PythonExecutionSummary;
  Signals : option SignalTable
}.

(** A dictionary filled by assigning distinct keys, in insertion order. *)
Abbreviation BarsBySymbol := (list (string * list PriceBar)).

(** ** The strategy service *)

Definition Truncate (value : string) (maxLength : Z) : string :=
  if Z.of_nat (String.length value) <=? maxLength then value
  else substring 0 (Z.to_nat maxLength) value.

Fixpoint split_on (separator : ascii) (s current : list ascii) : list (list ascii) :=
  match s with
  | [] => [rev current]
  | c :: s' =>
      if Ascii.eqb c separator then rev current :: split_on separator s' []
      else split_on separator s' (c :: current)
  end.

Definition is_json_object_line (line : list ascii) : bool :=
  match line with
  | c :: _ => Ascii.eqb c "{"%char
  | [] => false
  end &&
  match last line with
  | Some c => Ascii.eqb c "}"%char
  | None => false
  end.

(** [ExtractSignalJson]: the last trimmed, non-empty line of the output
    that starts with an opening and ends with a closing brace. *)
Definition ExtractSignalJson (stdout : string) : option string :=
  if IsNullOrWhiteSpace (Some stdout) then None
  else
    let entries := split_on (ascii_of_nat 10) (list_ascii_of_string stdout) [] in
    let trimmed := map (fun e => TrimEnd (TrimStart e)) entries in
    let lines := rev (List.filter (fun e => negb (Nat.eqb (length e) 0)) trimmed) in
    string_of_list_ascii <$> List.find is_json_object_line lines.

Record InputPayload : Type := mkInputPayload {
  payload_strategy_params : list (string * JsonElement);
  payload_dates : list string;
  payload_symbols : list string;
  payload_close : gmap string (gmap string Z);
  payload_returns : gmap string (gmap string Z)
}.

(** The inner loop of [BuildInputPayload] over the calendar, for one symbol:
    the close and return series and the previous close seen. *)
Fixpoint payload_series (byDate : gmap Z Z) (dates : list DateOnly)
    (closeSeries returnSeries : gmap string Z) (prevClose : option Z)
  : Outcome (gmap string Z * gmap string Z) :=
  match dates with
  | [] => Ok (closeSeries, returnSeries)
  | date :: rest =>
      match byDate !! date with
      | None => payload_series byDate rest closeSeries returnSeries prevClose
      | Some c =>
          let! ret :=
            match prevClose with
            | None => Ok 0
            | Some prev =>
                if prev =? 0 then Ok 0
                else
                  let! q := of_option OverflowException (dec_div c prev) in
                  of_option OverflowException (dec_sub q (dec_of_int 1))
            end in
          payload_series byDate rest
            (<[DateOnly_ToString date := c]> closeSeries)
            (<[DateOnly_ToString date := ret]> returnSeries)
            (Some c)
      end
  end.

Fixpoint payload_tables (dates : list DateOnly) (bars : BarsBySymbol)
    (close returns : gmap string (gmap string Z))
  : Outcome (gmap string (gmap string Z) * gmap string (gmap string Z)) :=
  match bars with
  | [] => Ok (close, returns)
  | (symbol, symbolBars) :: rest =>
      let! byDate := ToDictionary Date Close symbolBars in
      let! series := payload_series byDate dates ∅ ∅ None in
      payload_tables dates rest
        (<[symbol := fst series]> close) (<[symbol := snd series]> returns)
  end.

Definition BuildInputPayload (config : BacktestConfig) (dates : list DateOnly)
    (barsBySymbol : BarsBySymbol) : Outcome InputPayload :=
  let dateStrings := map DateOnly_ToString dates in
  let symbols := map fst barsBySymbol in
  let! tables := payload_tables dates barsBySymbol ∅ ∅ in
  Ok {| payload_strategy_params := default [] (StrategyParams config);
        payload_dates := dateStrings;
        payload_symbols := symbols;
        payload_close := fst tables;
        payload_returns := snd tables |}.

(** What the service does to the outside world, in order. *)
Inductive Effect : Type :=
| CreateDirectory
| WriteFile (name : string)
| ProcessStart
| ProcessKillTree
| DeleteDirectory.

(** The task [Task.WhenAny(waitTask, timeoutTask)] hands back: the process
    exit, or the 15 second delay. *)
Inductive FirstCompleted : Type :=
| WaitTask
| TimeoutTask.

(** The file system, the python process and the JSON parser, as the
    service meets them in one call. *)
Record SandboxEnv : Type := mkSandboxEnv {
  env_createDirectory : Outcome unit;
  env_writeFile : string -> Outcome unit;
  env_processStart : Outcome unit;
  env_first : FirstCompleted;
  env_awaitExit : Outcome unit;
  env_stdout : Outcome string;
  env_stderr : Outcome string;
  env_exitCode : Z;
  env_deserialize : string -> Outcome (option SignalTable);
  env_runtimeMessage : Exn -> string
}.

(** [ex.Message]: the text given at the throw site, or the runtime's own. *)
Definition Exn_Message (env : SandboxEnv) (ex : Exn) : string :=
  match ex with
  | InvalidOperationException message => message
  | CollaboratorException message => message
  | _ => env_runtimeMessage env ex
  end.

(** Computations that log their effects and may throw. *)
Definition IO (A : Type) : Type := list Effect -> list Effect * Outcome A.

Definition io_ret {A : Type} (a : A) : IO A := fun log => (log, Ok a).

Definition io_bind {A B : Type} (m : IO A) (k : A -> IO B) : IO B :=
  fun log =>
    match m log with
    | (log', Ok a) => k a log'
    | (log', Throw e) => (log', Throw e)
    end.

Notation "'do!' x ':=' m 'in' k" := (io_bind m (fun x => k))
  (at level 10, x pattern, m at level 100, k at level 200).

Definition io_lift {A : Type} (r : Outcome A) : IO A := fun log => (log, r).

Definition perform {A : Type} (eff : Effect) (r : Outcome A) : IO A :=
  fun log => (log ++ [eff], r).

(** [try { body } catch (Exception ex) { handler }] *)
Definition io_catch {A : Type} (body : IO A) (handler : Exn -> IO A) : IO A :=
  fun log =>
    match body log with
    | (log', Ok a) => (log', Ok a)
    | (log', Throw e) => handler e log'
    end.

(** [try { body } finally { try { cleanup } catch { } }] *)
Definition io_finally {A : Type} (body : IO A) (cleanup : Effect) : IO A :=
  fun log =>
    match body log with
    | (log', r) => (log' ++ [cleanup], r)
    end.

Definition summary_not_requested : PythonExecutionSummary :=
  {| Requested := false; Executed := false; Succeeded := true; UsedFallback := false;
     Message := "No custom strategyCode provided. Using built-in momentum ranking.";
     SignalDates := 0; StderrSnippet := None; ErrorType := None |}.

Definition summary_failure (executed : bool) (message : string)
    (stderr : option string) (errorType : string) : PythonExecutionSummary :=
  {| Requested := true; Executed := executed; Succeeded := false; UsedFallback := false;
     Message := message; SignalDates := 0; StderrSnippet := stderr;
     ErrorType := Some errorType |}.

Definition failure (executed : bool) (message : string)
    (stderr : option string) (errorType : string) : PythonSignalsResult :=
  {| Execution := summary_failure executed message stderr errorType; Signals := None |}.

(** The [try] block of [BuildSignalsByDateAsync]. *)
Definition run_strategy_process (env : SandboxEnv) (config : BacktestConfig)
    (dates : list DateOnly) (barsBySymbol : BarsBySymbol) : IO PythonSignalsResult :=
  do! _ := perform (WriteFile "strategy.py") (env_writeFile env "strategy.py") in
  do! _ := perform (WriteFile "strategy_params.json")
                   (env_writeFile env "strategy_params.json") in
  do! _ := io_lift (BuildInputPayload config dates barsBySymbol) in
  do! _ := perform (WriteFile "strategy_input.json")
                   (env_writeFile env "strategy_input.json") in
  do! _ := perform (WriteFile "runner.py") (env_writeFile env "runner.py") in
  do! _ := perform ProcessStart (env_processStart env) in
  match env_first env with
  | TimeoutTask =>
      (* Kill(entireProcessTree: true); a failure of the kill is ignored *)
      do! _ := perform ProcessKillTree (Ok tt) in
      io_ret (failure true "Python strategy timed out after 15 seconds." None "timeout")
  | WaitTask =>
      do! _ := io_lift (env_awaitExit env) in
      do! stdout := io_lift (env_stdout env) in
      do! stderrFull := io_lift (env_stderr env) in
      let stderr := Truncate stderrFull 3000 in
      if negb (env_exitCode env =? 0) then
        io_ret (failure true "Python strategy exited with non-zero status."
                        (Some stderr) "runtime")
      else
        match ExtractSignalJson stdout with
        | None =>
            io_ret (failure true "Python strategy did not produce valid JSON output."
                            (Some stderr) "output")
        | Some signalJson =>
            do! deserialized := io_lift (env_deserialize env signalJson) in
            let parsed : SignalTable := default ∅ deserialized in
            io_ret
              {| Execution :=
                   {| Requested := true; Executed := true; Succeeded := true;
                      UsedFallback := false;
                      Message := "Python strategy executed successfully.";
                      SignalDates := Z.of_nat (size parsed);
                      StderrSnippet :=
                        if IsNullOrWhiteSpace (Some stderr) then None else Some stderr;
                      ErrorType := None |};
                 Signals := Some parsed |}
        end
  end.

Definition BuildSignalsByDateAsync (env : SandboxEnv) (config : BacktestConfig)
    (dates : list DateOnly) (barsBySymbol : BarsBySymbol) : IO PythonSignalsResult :=
  if IsNullOrWhiteSpace (StrategyCode config) then
    io_ret {| Execution := summary_not_requested; Signals := None |}
  else if 200000 <? Z.of_nat (String.length (default EmptyString (StrategyCode config))) then
    io_ret (failure false "Strategy code is too large." None "validation")
  else
    match ValidateParams (StrategyParams config) with
    | Some paramValidationError =>
        io_ret (failure false paramValidationError None "validation")
    | None =>
        do! _ := perform CreateDirectory (env_createDirectory env) in
        io_finally
          (io_catch
             (run_strategy_process env config dates barsBySymbol)
             (fun ex =>
                io_ret (failure false "Python strategy execution failed unexpectedly."
                                (Some (Truncate (Exn_Message env ex) 3000)) "exception")))
          DeleteDirectory
    end.

(** ** The backtest engine *)

(** The injected services and the cancellation token.  The token is read
    once per loop iteration: [IsCancellationRequested i] is its state when
    iteration [i] begins. *)
Record Services : Type := mkServices {
  GetBarsAsync : string -> DateOnly -> DateOnly -> Outcome (list PriceBar);
  BuildSignals :
    BacktestConfig -> list DateOnly -> BarsBySymbol -> Outcome PythonSignalsResult;
  IsCancellationRequested : Z -> bool
}.

(** [IPythonStrategyService] as implemented by [PythonStrategyService]. *)
Definition PythonStrategyService (env : SandboxEnv)
  : BacktestConfig -> list DateOnly -> BarsBySymbol -> Outcome PythonSignalsResult :=
  fun config dates barsBySymbol =>
    snd (BuildSignalsByDateAsync env config dates barsBySymbol []).

Definition normalize_symbols (raw : list string) : list string :=
  Distinct
    (List.filter (fun x => negb (IsNullOrWhiteSpace (Some x)))
       (map (fun x => ToUpperInvariant (Trim x)) raw)).

Definition required_symbols (config : BacktestConfig) : Z :=
  Math_Max 3 (int32 (LongCount config + ShortCount config)).

Definition fetch_bars (services : Services) (config : BacktestConfig)
    (symbols : list string) : Outcome BarsBySymbol :=
  outcome_map (fun symbol =>
          let! bars := GetBarsAsync services symbol (StartDate config) (EndDate config) in
          Ok (symbol, OrderBy Date bars))
       symbols.

Definition common_dates (barsBySymbol : BarsBySymbol) : list DateOnly :=
  IntersectDates (map (fun kvp => map Date (snd kvp)) barsBySymbol).

(** [list[i]] with an [int] index. *)
Definition item {A : Type} (l : list A) (i : Z) : Outcome A :=
  if i <? 0 then Throw ArgumentOutOfRangeException
  else of_option ArgumentOutOfRangeException (l !! Z.to_nat i).

Abbreviation CloseMap := (gmap string (gmap Z Z)).

Fixpoint build_closeMap (barsBySymbol : BarsBySymbol) (acc : CloseMap) : Outcome CloseMap :=
  match barsBySymbol with
  | [] => Ok acc
  | (symbol, bars) :: rest =>
      let! byDate := ToDictionary Date Close bars in
      build_closeMap rest (<[symbol := byDate]> acc)
  end.

(** [closeMap[symbol][date]] *)
Definition close_at (closeMap : CloseMap) (symbol : string) (date : DateOnly) : Outcome Z :=
  let! byDate := of_option KeyNotFoundException (closeMap !! symbol) in
  of_option KeyNotFoundException (byDate !! date).

(** The text of the exception thrown at line 76. *)
Definition strategy_failure_message (pythonExecution : PythonExecutionSummary) : string :=
  let detail :=
    if IsNullOrWhiteSpace (StderrSnippet pythonExecution) then EmptyString
    else " stderr: " +:+ default EmptyString (StderrSnippet pythonExecution) in
  "Python strategy failed (" +:+ default "error" (ErrorType pythonExecution)
  +:+ "): " +:+ Message pythonExecution +:+ "." +:+ detail.

(** [pythonExecution with { UsedFallback = true, Message = ... }] *)
Definition with_fallback (pythonExecution : PythonExecutionSummary)
  : PythonExecutionSummary :=
  {| Requested := Requested pythonExecution;
     Executed := Executed pythonExecution;
     Succeeded := Succeeded pythonExecution;
     UsedFallback := true;
     Message := Message pythonExecution +:+ " Falling back to built-in momentum ranking.";
     SignalDates := SignalDates pythonExecution;
     StderrSnippet := StderrSnippet pythonExecution;
     ErrorType := ErrorType pythonExecution |}.

(** Lines 69-86: what the engine makes of the strategy service's answer. *)
Definition resolve_scoring (config : BacktestConfig) (pythonResult : PythonSignalsResult)
  : Outcome (PythonExecutionSummary * option SignalTable) :=
  let pythonSignals := Signals pythonResult in
  let pythonExecution := Execution pythonResult in
  if Requested pythonExecution && negb (Succeeded pythonExecution) then
    if negb (FallbackToBuiltinOnPythonError config) then
      Throw (InvalidOperationException (strategy_failure_message pythonExecution))
    else Ok (with_fallback pythonExecution, None)
  else Ok (pythonExecution, pythonSignals).

Definition benchmark_start (benchmarkBars : list PriceBar) (benchmarkMap : gmap Z Z)
    (commonDates : list DateOnly) : Outcome Z :=
  let! first := item commonDates 0 in
  match benchmarkMap !! first with
  | Some bStart => Ok bStart
  | None =>
      match benchmarkBars with
      | bar :: _ => Ok (Close bar)
      | [] => Throw (InvalidOperationException "Sequence contains no elements")
      end
  end.

Definition isRebalance (config : BacktestConfig) (i : Z) : bool :=
  Z.rem (int32 (i - LookbackDays config))
        (Math_Max 1 (RebalanceFrequencyDays config)) =? 0.

Definition momentum (closeMap : CloseMap) (lookbackDate date : DateOnly) (symbol : string)
  : Outcome (string * Z) :=
  let! startClose := close_at closeMap symbol lookbackDate in
  let! endClose := close_at closeMap symbol date in
  let! score :=
    if startClose =? 0 then Ok 0
    else
      let! q := of_option OverflowException (dec_div endClose startClose) in
      of_option OverflowException (dec_sub q (dec_of_int 1)) in
  Ok (symbol, score).

Definition default_ranked (closeMap : CloseMap) (symbols : list string)
    (lookbackDate date : DateOnly) : Outcome (list (string * Z)) :=
  let! scored := outcome_map (momentum closeMap lookbackDate date) symbols in
  Ok (OrderByDescending snd scored).

Definition custom_ranked (dateSignals : gmap string Z) (symbols : list string)
  : list (string * Z) :=
  OrderByDescending snd
    (map (fun symbol => (symbol, default missing_score (dateSignals !! symbol))) symbols).

(** The ranking used at a rebalance, and whether it is the custom one. *)
Definition choose_ranked (pythonSignals : option SignalTable) (symbols : list string)
    (date : DateOnly) (defaultRanked : list (string * Z)) : bool * list (string * Z) :=
  match pythonSignals with
  | None => (false, defaultRanked)
  | Some table =>
      match table !! DateOnly_ToString date with
      | Some dateSignals =>
          if 0 <? Z.of_nat (size dateSignals) then (true, custom_ranked dateSignals symbols)
          else (false, defaultRanked)
      | None => (false, defaultRanked)
      end
  end.

Definition long_selection (config : BacktestConfig) (ranked : list (string * Z))
  : list string :=
  Distinct (map fst (Take (Math_Max 1 (LongCount config)) ranked)).

Definition short_selection (config : BacktestConfig) (ranked : list (string * Z))
  : list string :=
  Distinct (map fst (TakeLast (Math_Max 1 (ShortCount config)) ranked)).

(** [foreach (var symbol in selection) nextWeights[symbol] = weight;] where
    the weight is a quotient evaluated at each assignment. *)
Fixpoint assign_weights (selection : list string) (weight : option Z)
    (weights : gmap string Z) : Outcome (gmap string Z) :=
  match selection with
  | [] => Ok weights
  | symbol :: rest =>
      let! w := of_option OverflowException weight in
      assign_weights rest weight (<[symbol := w]> weights)
  end.

(** Lines 183-194. *)
Definition next_weights (config : BacktestConfig) (symbols : list string)
    (ranked : list (string * Z)) : Outcome (gmap string Z) :=
  let longSelection := long_selection config ranked in
  let shortSelection := short_selection config ranked in
  let! zero := ToDictionary id (fun _ : string => 0) symbols in
  let! afterLong :=
    assign_weights longSelection
      (dec_div (dec_of_int 1) (dec_of_int (Z.of_nat (length longSelection)))) zero in
  assign_weights shortSelection
    (dec_div (dec_of_int (-1)) (dec_of_int (Z.of_nat (length shortSelection)))) afterLong.

Record RebalanceRecord : Type := mkRebalanceRecord {
  rebalance_index : Z;
  rebalance_date : DateOnly;
  rebalance_custom : bool;
  rebalance_ranked : list (string * Z);
  rebalance_weights : gmap string Z
}.

(** The loop state kept by the model: the current weights, the dates of
    the progress events emitted so far, and a log of the rebalances. *)
Record LoopState : Type := mkLoopState {
  positions : gmap string Z;
  progress : list DateOnly;
  rebalances : list RebalanceRecord
}.

Section Loop.
Variable services : Services.
Variable config : BacktestConfig.
Variable symbols : list string.
Variable commonDates : list DateOnly.
Variable closeMap : CloseMap.
Variable pythonSignals : option SignalTable.

(** Lines 152-224. *)
Definition rebalance (i : Z) (date : DateOnly) (st : LoopState) : Outcome LoopState :=
  let! lookbackDate := item commonDates (int32 (i - LookbackDays config)) in
  let! defaultRanked := default_ranked closeMap symbols lookbackDate date in
  let '(custom, ranked) := choose_ranked pythonSignals symbols date defaultRanked in
  let! nextWeights := next_weights config symbols ranked in
  Ok {| positions := nextWeights;
        progress := progress st;
        rebalances :=
          rebalances st ++
          [{| rebalance_index := i; rebalance_date := date; rebalance_custom := custom;
              rebalance_ranked := ranked; rebalance_weights := nextWeights |}] |}.

(** One iteration of the loop, lines 113-244. *)
Definition simulate_day (i : Z) (st : LoopState) : Outcome LoopState :=
  if IsCancellationRequested services i then Throw OperationCanceledException
  else
    let! date := item commonDates i in
    let! prevDate := item commonDates (int32 (i - 1)) in
    (* the daily return reads both closes of every symbol *)
    let! _ := outcome_map (fun symbol =>
                      let! prev := close_at closeMap symbol prevDate in
                      close_at closeMap symbol date) symbols in
    let! st' := if isRebalance config i then rebalance i date st else Ok st in
    Ok {| positions := positions st';
          progress := progress st' ++ [date];
          rebalances := rebalances st' |}.

(** [for (var i = ...; i < commonDates.Count; i++)], with one unit of
    [fuel] per remaining iteration. *)
Fixpoint simulate_from (fuel : nat) (i : Z) (st : LoopState) : Outcome LoopState :=
  match fuel with
  | O => Ok st
  | S fuel' =>
      if i <? Z.of_nat (length commonDates) then
        let! st' := simulate_day i st in
        simulate_from fuel' (i + 1) st'
      else Ok st
  end.

Definition first_simulated : Z := int32 (LookbackDays config + 1).

Definition simulate (initial : gmap string Z) : Outcome LoopState :=
  simulate_from (Z.to_nat (Z.of_nat (length commonDates) - first_simulated))
    first_simulated
    {| positions := initial; progress := []; rebalances := [] |}.
End Loop.

(** The part of [BacktestResult] the model keeps: the scoring summary, and
    the final weights, progress dates and rebalance log in place of the
    numeric histories. *)
Record BacktestResult : Type := mkBacktestResult {
  PythonExecution : PythonExecutionSummary;
  FinalPositions : gmap string Z;
  ProgressDates : list DateOnly;
  Rebalances : list RebalanceRecord
}.

(** Lines 88-277: the benchmark maps, the loop and the result. *)
Definition finish_run (services : Services) (config : BacktestConfig)
    (symbols : list string) (benchmarkBars : list PriceBar)
    (commonDates : list DateOnly) (closeMap : CloseMap)
    (pythonExecution : PythonExecutionSummary) (pythonSignals : option SignalTable)
  : Outcome BacktestResult :=
  let! benchmarkMap := ToDictionary Date Close benchmarkBars in
  let! benchmarkStart := benchmark_start benchmarkBars benchmarkMap commonDates in
  let! initial := ToDictionary id (fun _ : string => 0) symbols in
  let! final :=
    simulate services config symbols commonDates closeMap pythonSignals initial in
  Ok {| PythonExecution := pythonExecution;
        FinalPositions := positions final;
        ProgressDates := progress final;
        Rebalances := rebalances final |}.

(** Lines 57-277: from the close map to the result. *)
Definition run_prepared (services : Services) (config : BacktestConfig)
    (symbols : list string) (barsBySymbol : BarsBySymbol)
    (benchmarkBars : list PriceBar) (commonDates : list DateOnly)
  : Outcome BacktestResult :=
  let! closeMap := build_closeMap barsBySymbol ∅ in
  let! pythonResult := BuildSignals services config commonDates barsBySymbol in
  let! scoring := resolve_scoring config pythonResult in
  finish_run services config symbols benchmarkBars commonDates closeMap
    (fst scoring) (snd scoring).

(** Lines 37-277: everything after the symbol count check. *)
Definition run_with_symbols (services : Services) (config : BacktestConfig)
    (symbols : list string) : Outcome BacktestResult :=
  let! barsBySymbol := fetch_bars services config symbols in
  let! benchmarkFetched :=
    GetBarsAsync services "SPY" (StartDate config) (EndDate config) in
  let benchmarkBars := OrderBy Date benchmarkFetched in
  let commonDates := common_dates barsBySymbol in
  if Z.of_nat (length commonDates) <=? int32 (LookbackDays config + 2) then
    Throw (InvalidOperationException
             "Insufficient overlapping date coverage across symbols.")
  else run_prepared services config symbols barsBySymbol benchmarkBars commonDates.

Definition RunAsync (services : Services) (config : BacktestConfig)
  : Outcome BacktestResult :=
  let symbols := normalize_symbols (Symbols config) in
  if Z.of_nat (length symbols) <? required_symbols config then
    Throw (InvalidOperationException
             "Not enough symbols provided for long/short selection.")
  else run_with_symbols services config symbols.

(** ** Notions used in the statements *)

(** The loop indices from [i] on, for a calendar of [count] dates. *)
Definition indices_from (i : Z) (count : nat) : list Z :=
  map (fun k => i + Z.of_nat k) (seq 0 (Z.to_nat (Z.of_nat count - i))).

(** The simulated days of a run: the values [i] takes in the loop. *)
Definition simulated_days (config : BacktestConfig) (count : nat) : list Z :=
  indices_from (first_simulated config) count.


(** What the log records of a rebalance at index [i] on [date]: the
    built-in ranking over the lookback window, the ranking chosen, and the
    weights computed from it. *)
Definition rebalance_ok (config : BacktestConfig) (symbols : list string)
    (commonDates : list DateOnly) (closeMap : CloseMap)
    (pythonSignals : option SignalTable) (record : RebalanceRecord) : Prop :=
  isRebalance config (rebalance_index record) = true /\
  item commonDates (rebalance_index record) = Ok (rebalance_date record) /\
  exists lookbackDate defaultRanked,
    item commonDates (int32 (rebalance_index record - LookbackDays config))
      = Ok lookbackDate /\
    default_ranked closeMap symbols lookbackDate (rebalance_date record)
      = Ok defaultRanked /\
    choose_ranked pythonSignals symbols (rebalance_date record) defaultRanked
      = (rebalance_custom record, rebalance_ranked record) /\
    next_weights config symbols (rebalance_ranked record)
      = Ok (rebalance_weights record).


(** ** A synthetic market *)

Module Scenario.

Definition first_day : Z := 738885.

(** Bar of the symbol numbered [k] on day [d]. *)
Definition bar (k d : Z) : PriceBar :=
  let c := dec_of_int (100 + (k + 1) * d + ((k + 2) * d * d) mod 17) in
  mkPriceBar (first_day + d) c c c c (dec_of_int 1000).

Definition bars (k : Z) (days : nat) : list PriceBar :=
  map (fun d => bar k (Z.of_nat d)) (seq 0 days).

(** A market of [days] trading days in which the benchmark has bars for
    the first [benchmarkDays] of them only. *)
Definition market (days benchmarkDays : nat) (symbol : string)
    (startDate endDate : DateOnly) : Outcome (list PriceBar) :=
  if String.eqb symbol "A" then Ok (bars 0 days)
  else if String.eqb symbol "B" then Ok (bars 1 days)
  else if String.eqb symbol "C" then Ok (bars 2 days)
  else if String.eqb symbol "D" then Ok (bars 3 days)
  else if String.eqb symbol "E" then Ok (bars 4 days)
  else if String.eqb symbol "SPY" then Ok (bars 5 benchmarkDays)
  else Ok [].

(** A sandbox in which every step succeeds and the process prints an
    empty table. *)
Definition quiet_env : SandboxEnv :=
  {| env_createDirectory := Ok tt;
     env_writeFile := fun _ => Ok tt;
     env_processStart := Ok tt;
     env_first := WaitTask;
     env_awaitExit := Ok tt;
     env_stdout := Ok "{}";
     env_stderr := Ok EmptyString;
     env_exitCode := 0;
     env_deserialize := fun _ => Ok (Some ∅);
     env_runtimeMessage := fun _ => "runtime error" |}.

Definition services (env : SandboxEnv) (days benchmarkDays : nat) : Services :=
  {| GetBarsAsync := market days benchmarkDays;
     BuildSignals := PythonStrategyService env;
     IsCancellationRequested := fun _ => false |}.

Definition config (symbols : list string) (lookback frequency long short : Z)
    (code : option string) (fallback : bool) : BacktestConfig :=
  {| Symbols := symbols;
     StartDate := first_day;
     EndDate := first_day + 400;
     InitialCapital := dec_of_int 1000000;
     LookbackDays := lookback;
     RebalanceFrequencyDays := frequency;
     LongCount := long;
     ShortCount := short;
     StrategyCode := code;
     StrategyParams := None;
     FallbackToBuiltinOnPythonError := fallback |}.

(** The end-to-end scenario of the specification. *)
Definition universe : list string := ["A"; "B"; "C"; "D"; "E"]%string.
Definition end_to_end : BacktestConfig := config universe 5 5 2 1 None false.

Definition no_result : BacktestResult :=
  {| PythonExecution := summary_not_requested;
     FinalPositions := ∅; ProgressDates := []; Rebalances := [] |}.

Definition result_of (run : Outcome BacktestResult) : BacktestResult :=
  value_or no_result run.


(** A sandbox whose python process exits with status 1. *)
Definition crashing_env : SandboxEnv :=
  {| env_createDirectory := Ok tt;
     env_writeFile := fun _ => Ok tt;
     env_processStart := Ok tt;
     env_first := WaitTask;
     env_awaitExit := Ok tt;
     env_stdout := Ok EmptyString;
     env_stderr := Ok "ZeroDivisionError: division by zero";
     env_exitCode := 1;
     env_deserialize := fun _ => Ok None;
     env_runtimeMessage := fun _ => "runtime error" |}.

(** A sandbox whose python process is still running after 15 seconds. *)
Definition sleeping_env : SandboxEnv :=
  {| env_createDirectory := Ok tt;
     env_writeFile := fun _ => Ok tt;
     env_processStart := Ok tt;
     env_first := TimeoutTask;
     env_awaitExit := Ok tt;
     env_stdout := Ok EmptyString;
     env_stderr := Ok EmptyString;
     env_exitCode := 0;
     env_deserialize := fun _ => Ok None;
     env_runtimeMessage := fun _ => "runtime error" |}.

(** A sandbox in which the temporary directory cannot be created. *)
Definition read_only_env : SandboxEnv :=
  {| env_createDirectory := Throw (CollaboratorException "Read-only file system");
     env_writeFile := fun _ => Ok tt;
     env_processStart := Ok tt;
     env_first := WaitTask;
     env_awaitExit := Ok tt;
     env_stdout := Ok "{}";
     env_stderr := Ok EmptyString;
     env_exitCode := 0;
     env_deserialize := fun _ => Ok (Some ∅);
     env_runtimeMessage := fun _ => "runtime error" |}.

Definition no_signals : PythonSignalsResult :=
  {| Execution := summary_not_requested; Signals := None |}.

Definition strategy_source : string := "def generate_signals(context, params): return {}".

(** A parameter value nested [n] arrays deep around a number. *)
Fixpoint nested (n : nat) : JsonElement :=
  match n with
  | O => JsonNumber "1"
  | S n' => JsonArray [nested n']
  end.

End Scenario.

(** * Properties *)

(** ** The error monad *)

Lemma outcome_map_Forall2 {A B : Type} (f : A -> Outcome B) (l : list A) (ys : list B) :
  outcome_map f l = Ok ys -> Forall2 (fun x y => f x = Ok y) l ys.
Proof.
  revert ys. induction l as [|x l IH]; intros ys Hm; simpl in Hm.
  - injection Hm as <-. constructor.
  - destruct (f x) as [y|e] eqn:Hfx; simpl in Hm; [|discriminate].
    destruct (outcome_map f l) as [ys'|e] eqn:Hl; simpl in Hm; [|discriminate].
    injection Hm as <-. constructor; [exact Hfx | apply IH; reflexivity].
Qed.

Lemma outcome_map_length {A B : Type} (f : A -> Outcome B) (l : list A) (ys : list B) :
  outcome_map f l = Ok ys -> length ys = length l.
Proof.
  intros Hm. apply outcome_map_Forall2 in Hm. symmetry. eapply Forall2_length, Hm.
Qed.

(** ** Machine integers *)

Lemma int32_small (x : Z) : - 2 ^ 31 <= x < 2 ^ 31 -> int32 x = x.
Proof.
  intros Hx. unfold int32.
  rewrite Z.mod_small; lia.
Qed.

Lemma Math_Max_spec (a b : Z) : Math_Max a b = Z.max a b.
Proof. unfold Math_Max. destruct (Z.ltb_spec a b); lia. Qed.

(** ** Sorting *)

Section OrderBy.
Context {A : Type} (key : A -> Z).

Lemma insert_by_Permutation (x : A) (l : list A) : insert_by key x l ≡ₚ x :: l.
Proof.
  induction l as [|y l IH]; simpl; [reflexivity|].
  destruct (key x <=? key y); [reflexivity|].
  rewrite IH. apply Permutation_swap.
Qed.

Lemma OrderBy_Permutation (l : list A) : OrderBy key l ≡ₚ l.
Proof.
  induction l as [|x l IH]; simpl; [reflexivity|].
  unfold OrderBy in *. simpl. rewrite insert_by_Permutation, IH. reflexivity.
Qed.

Lemma OrderBy_length (l : list A) : length (OrderBy key l) = length l.
Proof. apply Permutation_length, OrderBy_Permutation. Qed.

Lemma OrderBy_elem_of (x : A) (l : list A) : x ∈ OrderBy key l <-> x ∈ l.
Proof. rewrite (OrderBy_Permutation l). reflexivity. Qed.

Lemma insert_by_Sorted (x : A) (l : list A) :
  Sorted (fun a b => key a <= key b) l ->
  Sorted (fun a b => key a <= key b) (insert_by key x l).
Proof.
  induction l as [|y l IH]; intros Hs; simpl.
  - repeat constructor.
  - destruct (Z.leb_spec (key x) (key y)) as [Hle|Hgt].
    + constructor; [exact Hs | constructor; exact Hle].
    + inversion Hs as [|? ? Hs' Hhd]; subst.
      constructor; [apply IH; exact Hs'|].
      destruct l as [|z l]; simpl.
      * constructor. lia.
      * destruct (key x <=? key z); constructor; [lia|].
        inversion Hhd; subst. assumption.
Qed.

Lemma OrderBy_Sorted (l : list A) :
  Sorted (fun a b => key a <= key b) (OrderBy key l).
Proof.
  induction l as [|x l IH]; [constructor|].
  apply insert_by_Sorted, IH.
Qed.
End OrderBy.


Lemma le_sorted_NoDup_strict (l : list Z) :
  Sorted Z.le l -> NoDup l -> StronglySorted Z.lt l.
Proof.
  intros Hs Hnd. apply Sorted_StronglySorted in Hs; [|intros a b c; lia].
  induction Hs as [|x l Hs IH Hall]; [constructor|].
  apply NoDup_cons in Hnd as [Hx Hnd].
  constructor; [apply IH; exact Hnd|].
  rewrite Forall_forall in *. intros y Hy.
  assert (x <> y) by (intros ->; apply Hx; exact Hy).
  specialize (Hall y Hy). lia.
Qed.

(** ** [Distinct] *)

Lemma Distinct_from_elem_of (seen l : list string) (x : string) :
  x ∈ Distinct_from seen l <-> x ∈ l /\ x ∉ seen.
Proof.
  revert seen. induction l as [|y l IH]; intros seen; simpl.
  - split; [intros H; inversion H | intros [H _]; inversion H].
  - case_bool_decide as Hy.
    + rewrite IH, elem_of_cons. split; [tauto|].
      intros [[->|Hin] Hns]; [contradiction | tauto].
    + rewrite !elem_of_cons, IH, elem_of_cons. split.
      * intros [->|[Hin Hns]]; [tauto|]. split; [tauto|]. tauto.
      * intros [[->|Hin] Hns]; [tauto|].
        destruct (decide (x = y)) as [->|Hne]; [tauto|]. right. tauto.
Qed.

Lemma Distinct_from_NoDup (seen l : list string) : NoDup (Distinct_from seen l).
Proof.
  revert seen. induction l as [|y l IH]; intros seen; simpl; [constructor|].
  case_bool_decide; [apply IH|].
  apply NoDup_cons. split; [|apply IH].
  rewrite Distinct_from_elem_of, elem_of_cons. tauto.
Qed.

Lemma Distinct_elem_of (l : list string) (x : string) : x ∈ Distinct l <-> x ∈ l.
Proof.
  unfold Distinct. rewrite Distinct_from_elem_of.
  split; [tauto|]. intros H. split; [exact H|]. apply not_elem_of_nil.
Qed.

Lemma Distinct_NoDup (l : list string) : NoDup (Distinct l).
Proof. apply Distinct_from_NoDup. Qed.



Lemma Distinct_length_le (l : list string) : (length (Distinct l) <= length l)%nat.
Proof.
  unfold Distinct. generalize (@nil string) as seen.
  induction l as [|y l IH]; intros seen; simpl; [lia|].
  case_bool_decide; simpl; [specialize (IH seen) | specialize (IH (y :: seen))]; lia.
Qed.

(** ** [IntersectDates] *)

Lemma foldl_intersection_elem_of (first : gset Z) (others : list (gset Z)) (d : Z) :
  d ∈ foldl (fun acc set => acc ∩ set) first others <->
  d ∈ first /\ forall set, set ∈ others -> d ∈ set.
Proof.
  revert first. induction others as [|s others IH]; intros first; simpl.
  - split; [intros H; split; [exact H|]; intros set Hs; inversion Hs | tauto].
  - rewrite IH, elem_of_intersection. split.
    + intros [[H1 H2] H3]. split; [exact H1|].
      intros set Hs. apply elem_of_cons in Hs as [->|Hs]; [exact H2 | apply H3, Hs].
    + intros [H1 H2]. split; [split; [exact H1 | apply H2; left]|].
      intros set Hs. apply H2. right. exact Hs.
Qed.

Lemma IntersectDates_elem_of (dateCollections : list (list Z)) (d : Z) :
  d ∈ IntersectDates dateCollections <->
  dateCollections <> [] /\ forall c, c ∈ dateCollections -> d ∈ c.
Proof.
  unfold IntersectDates. destruct dateCollections as [|c0 cs]; simpl.
  - split; [intros H; inversion H | intros [H _]; contradiction].
  - rewrite OrderBy_elem_of, elem_of_elements, foldl_intersection_elem_of.
    rewrite elem_of_list_to_set. split.
    + intros [H0 Hrest]. split; [discriminate|].
      intros c Hc. apply elem_of_cons in Hc as [->|Hc]; [exact H0|].
      rewrite <- (elem_of_list_to_set (C := gset Z)). apply Hrest.
      apply list_elem_of_fmap. exists c. split; [reflexivity | exact Hc].
    + intros [_ Hall]. split; [apply Hall; left|].
      intros set Hs. apply list_elem_of_fmap in Hs as [c [-> Hc]].
      rewrite elem_of_list_to_set. apply Hall. right. exact Hc.
Qed.

Lemma IntersectDates_strictly_increasing (dateCollections : list (list Z)) :
  StronglySorted Z.lt (IntersectDates dateCollections).
Proof.
  unfold IntersectDates. destruct dateCollections as [|c0 cs]; simpl; [constructor|].
  apply le_sorted_NoDup_strict.
  - apply (OrderBy_Sorted id).
  - rewrite (OrderBy_Permutation id). apply NoDup_elements.
Qed.

(** ** The simulation loop *)

Lemma indices_from_done (i : Z) (count : nat) :
  Z.of_nat count <= i -> indices_from i count = [].
Proof.
  intros Hi. unfold indices_from.
  replace (Z.to_nat (Z.of_nat count - i)) with O by lia. reflexivity.
Qed.

Lemma indices_from_step (i : Z) (count : nat) :
  i < Z.of_nat count -> indices_from i count = i :: indices_from (i + 1) count.
Proof.
  intros Hi. unfold indices_from.
  replace (Z.to_nat (Z.of_nat count - i))
    with (S (Z.to_nat (Z.of_nat count - (i + 1)))) by lia.
  simpl. f_equal; [lia|].
  rewrite <- seq_shift, map_map. apply map_ext. intros k. lia.
Qed.

Section LoopProperties.
Variable services : Services.
Variable config : BacktestConfig.
Variable symbols : list string.
Variable commonDates : list DateOnly.
Variable closeMap : CloseMap.
Variable pythonSignals : option SignalTable.

Lemma simulate_day_inv (i : Z) (st st' : LoopState) :
  simulate_day services config symbols commonDates closeMap pythonSignals i st
    = Ok st' ->
  IsCancellationRequested services i = false /\
  exists date,
    item commonDates i = Ok date /\
    progress st' = progress st ++ [date] /\
    if isRebalance config i then
      exists record,
        rebalances st' = rebalances st ++ [record] /\
        rebalance_index record = i /\
        rebalance_ok config symbols commonDates closeMap pythonSignals record /\
        positions st' = rebalance_weights record
    else rebalances st' = rebalances st /\ positions st' = positions st.
Proof.
  unfold simulate_day. intros Hd.
  destruct (IsCancellationRequested services i); [discriminate|].
  split; [reflexivity|].
  destruct (item commonDates i) as [date|] eqn:Hdate; simpl in Hd; [|discriminate].
  destruct (item commonDates (int32 (i - 1))) as [prevDate|]; simpl in Hd; [|discriminate].
  destruct (outcome_map _ symbols) as [reads|]; simpl in Hd; [|discriminate].
  exists date. split; [reflexivity|].
  destruct (isRebalance config i) eqn:Hreb.
  - unfold rebalance in Hd.
    destruct (item commonDates (int32 (i - LookbackDays config)))
      as [lookbackDate|] eqn:Hlb; simpl in Hd; [|discriminate].
    destruct (default_ranked closeMap symbols lookbackDate date)
      as [defaultRanked|] eqn:Hdef; simpl in Hd; [|discriminate].
    destruct (choose_ranked pythonSignals symbols date defaultRanked)
      as [custom ranked] eqn:Hch.
    destruct (next_weights config symbols ranked) as [w|] eqn:Hw; simpl in Hd;
      [|discriminate].
    injection Hd as <-. simpl. split; [reflexivity|].
    eexists. split; [reflexivity|]. simpl. split; [reflexivity|].
    split; [|reflexivity].
    unfold rebalance_ok. simpl. split; [exact Hreb|]. split; [exact Hdate|].
    exists lookbackDate, defaultRanked. auto.
  - simpl in Hd. injection Hd as <-. simpl. auto.
Qed.

Lemma item_drop (i : Z) (date : DateOnly) :
  item commonDates i = Ok date ->
  0 <= i /\ drop (Z.to_nat i) commonDates = date :: drop (Z.to_nat (i + 1)) commonDates.
Proof.
  unfold item. destruct (Z.ltb_spec i 0) as [|Hi]; [discriminate|].
  destruct (commonDates !! Z.to_nat i) as [d|] eqn:Hl; simpl; [|discriminate].
  intros [= ->]. split; [exact Hi|].
  replace (Z.to_nat (i + 1)) with (S (Z.to_nat i)) by lia.
  apply drop_S. exact Hl.
Qed.

(** The loop visits the indices [i, i+1, ..., Count-1] in order: it emits
    one progress event per index, and rebalances exactly at those where
    [isRebalance] holds. *)
Lemma simulate_from_inv (fuel : nat) (i : Z) (st st' : LoopState) :
  Z.of_nat (length commonDates) - i <= Z.of_nat fuel ->
  simulate_from services config symbols commonDates closeMap pythonSignals fuel i st
    = Ok st' ->
  exists records,
    rebalances st' = rebalances st ++ records /\
    map rebalance_index records
      = List.filter (isRebalance config) (indices_from i (length commonDates)) /\
    Forall (rebalance_ok config symbols commonDates closeMap pythonSignals) records /\
    (i < Z.of_nat (length commonDates) ->
     0 <= i /\ progress st' = progress st ++ drop (Z.to_nat i) commonDates) /\
    (Z.of_nat (length commonDates) <= i -> st' = st).
Proof.
  revert i st. induction fuel as [|fuel IH]; intros i st Hfuel Hloop.
  - simpl in Hloop. injection Hloop as <-.
    exists []. rewrite app_nil_r, indices_from_done by lia.
    repeat split; auto; lia.
  - cbn [simulate_from] in Hloop.
    destruct (Z.ltb_spec i (Z.of_nat (length commonDates))) as [Hlt|Hge].
    + destruct (simulate_day services config symbols commonDates closeMap
                  pythonSignals i st) as [st1|] eqn:Hday;
        cbn [obind] in Hloop; [|discriminate].
      apply simulate_day_inv in Hday as [_ [date [Hdate [Hprog Hreb]]]].
      apply IH in Hloop as [records [Hrecs [Hidx [Hall [Hprog' Hstop]]]]]; [|lia].
      apply item_drop in Hdate as [Hi0 Hdrop].
      rewrite indices_from_step by exact Hlt. simpl.
      assert (Hprogress : progress st' = progress st ++ drop (Z.to_nat i) commonDates).
      { rewrite Hdrop.
        destruct (Z.ltb_spec (i + 1) (Z.of_nat (length commonDates))) as [Hlt'|Hge'].
        - destruct (Hprog' Hlt') as [_ ->]. rewrite Hprog, <- app_assoc. reflexivity.
        - rewrite (Hstop Hge'), Hprog.
          rewrite (drop_ge commonDates (Z.to_nat (i + 1))) by lia. reflexivity. }
      destruct (isRebalance config i) eqn:Hri.
      * destruct Hreb as [record [Hr1 [Hr2 [Hr3 Hr4]]]].
        exists (record :: records). rewrite Hrecs, Hr1, <- app_assoc. simpl.
        split; [reflexivity|]. split; [rewrite Hr2, Hidx; reflexivity|].
        split; [constructor; assumption|].
        split; [intros _; split; assumption|]. lia.
      * destruct Hreb as [Hr1 Hr2].
        exists records. rewrite Hrecs, Hr1. split; [reflexivity|].
        split; [exact Hidx|]. split; [exact Hall|].
        split; [intros _; split; assumption|]. lia.
    + injection Hloop as <-. exists []. rewrite app_nil_r, indices_from_done by lia.
      repeat split; auto; lia.
Qed.
End LoopProperties.

(** ** The stages of a run *)

Lemma required_symbols_ge_3 (config : BacktestConfig) : 3 <= required_symbols config.
Proof. unfold required_symbols. rewrite Math_Max_spec. lia. Qed.

Lemma fetch_bars_Forall2 (services : Services) (config : BacktestConfig)
    (symbols : list string) (barsBySymbol : BarsBySymbol) :
  fetch_bars services config symbols = Ok barsBySymbol ->
  Forall2 (fun symbol kvp =>
             exists bars,
               GetBarsAsync services symbol (StartDate config) (EndDate config) = Ok bars /\
               kvp = (symbol, OrderBy Date bars))
          symbols barsBySymbol.
Proof.
  intros Hf. apply outcome_map_Forall2 in Hf.
  eapply Forall2_impl; [exact Hf|]. simpl. intros symbol kvp Hk.
  destruct (GetBarsAsync services symbol (StartDate config) (EndDate config))
    as [bars|]; simpl in Hk; [|discriminate].
  injection Hk as <-. exists bars. auto.
Qed.

(** A run that returns a result went through every stage. *)
Lemma RunAsync_Ok_inv (services : Services) (config : BacktestConfig)
    (r : BacktestResult) :
  RunAsync services config = Ok r ->
  let symbols := normalize_symbols (Symbols config) in
  exists barsBySymbol benchmarkFetched closeMap pythonResult scoring initial final,
    required_symbols config <= Z.of_nat (length symbols) /\
    fetch_bars services config symbols = Ok barsBySymbol /\
    GetBarsAsync services "SPY" (StartDate config) (EndDate config) = Ok benchmarkFetched /\
    int32 (LookbackDays config + 2) < Z.of_nat (length (common_dates barsBySymbol)) /\
    build_closeMap barsBySymbol ∅ = Ok closeMap /\
    BuildSignals services config (common_dates barsBySymbol) barsBySymbol = Ok pythonResult /\
    resolve_scoring config pythonResult = Ok scoring /\
    ToDictionary id (fun _ : string => 0) symbols = Ok initial /\
    simulate services config symbols (common_dates barsBySymbol) closeMap (snd scoring) initial
      = Ok final /\
    r = {| PythonExecution := fst scoring;
           FinalPositions := positions final;
           ProgressDates := progress final;
           Rebalances := rebalances final |}.
Proof.
  intros Hrun. cbv zeta. unfold RunAsync, run_with_symbols in Hrun.
  set (symbols := normalize_symbols (Symbols config)) in *.
  destruct (Z.ltb_spec (Z.of_nat (length symbols)) (required_symbols config)) as [|Hsym];
    [discriminate|].
  destruct (fetch_bars services config symbols) as [barsBySymbol|] eqn:Hfetch;
    simpl in Hrun; [|discriminate].
  destruct (GetBarsAsync services "SPY" (StartDate config) (EndDate config))
    as [benchmarkFetched|] eqn:Hspy; simpl in Hrun; [|discriminate].
  destruct (Z.leb_spec (Z.of_nat (length (common_dates barsBySymbol)))
              (int32 (LookbackDays config + 2))) as [|Hdates]; [discriminate|].
  unfold run_prepared in Hrun.
  destruct (build_closeMap barsBySymbol ∅) as [closeMap|] eqn:Hclose;
    simpl in Hrun; [|discriminate].
  destruct (BuildSignals services config (common_dates barsBySymbol) barsBySymbol)
    as [pythonResult|] eqn:Hpy; simpl in Hrun; [|discriminate].
  destruct (resolve_scoring config pythonResult) as [scoring|] eqn:Hres;
    simpl in Hrun; [|discriminate].
  unfold finish_run in Hrun.
  destruct (ToDictionary Date Close (OrderBy Date benchmarkFetched)) as [benchmarkMap|];
    simpl in Hrun; [|discriminate].
  destruct (benchmark_start _ benchmarkMap _) as [benchmarkStart|];
    simpl in Hrun; [|discriminate].
  destruct (ToDictionary id (fun _ : string => 0) symbols) as [initial|] eqn:Hinit;
    simpl in Hrun; [|discriminate].
  destruct (simulate services config symbols (common_dates barsBySymbol) closeMap
              (snd scoring) initial) as [final|] eqn:Hsim; simpl in Hrun; [|discriminate].
  injection Hrun as <-.
  exists barsBySymbol, benchmarkFetched, closeMap, pythonResult, scoring, initial, final.
  repeat split; auto.
Qed.

(** What a completed loop leaves behind. *)
Lemma simulate_inv (services : Services) (config : BacktestConfig)
    (symbols : list string) (commonDates : list DateOnly) (closeMap : CloseMap)
    (pythonSignals : option SignalTable) (initial : gmap string Z) (final : LoopState) :
  simulate services config symbols commonDates closeMap pythonSignals initial = Ok final ->
  progress final = drop (Z.to_nat (first_simulated config)) commonDates /\
  map rebalance_index (rebalances final)
    = List.filter (isRebalance config) (simulated_days config (length commonDates)) /\
  Forall (rebalance_ok config symbols commonDates closeMap pythonSignals)
         (rebalances final).
Proof.
  unfold simulate. intros Hsim.
  apply simulate_from_inv in Hsim as [records [Hrecs [Hidx [Hall [Hprog Hstop]]]]]; [|lia].
  simpl in Hrecs. subst records. split; [|split; assumption].
  destruct (Z.ltb_spec (first_simulated config) (Z.of_nat (length commonDates)))
    as [Hlt|Hge].
  - destruct (Hprog Hlt) as [_ ->]. reflexivity.
  - rewrite (Hstop Hge). simpl. rewrite drop_ge by lia. reflexivity.
Qed.

(** ** The aligned date calendar *)

(** C1, as the code has it: the calendar that drives the loop of a
    completed run is the intersection of the trading dates of the configured
    symbols, sorted strictly increasing without duplicates; the progress
    events walk it from the first simulated index on.  The benchmark's bars
    take no part in it. *)
Theorem calendar_is_intersection_of_symbol_dates (services : Services)
    (config : BacktestConfig) (r : BacktestResult) :
  RunAsync services config = Ok r ->
  exists calendar : list DateOnly,
    ProgressDates r = drop (Z.to_nat (first_simulated config)) calendar /\
    StronglySorted Z.lt calendar /\
    forall d : DateOnly,
      d ∈ calendar <->
      forall symbol, symbol ∈ normalize_symbols (Symbols config) ->
        exists bars,
          GetBarsAsync services symbol (StartDate config) (EndDate config) = Ok bars /\
          d ∈ map Date bars.
Proof.
  intros Hrun. apply RunAsync_Ok_inv in Hrun.
  destruct Hrun as (barsBySymbol & benchmarkFetched & closeMap & pythonResult & scoring
                    & initial & final & Hsym & Hfetch & _ & _ & _ & _ & _ & _ & Hsim & ->).
  exists (common_dates barsBySymbol). simpl.
  apply simulate_inv in Hsim as [Hprog _].
  split; [exact Hprog|].
  split; [apply IntersectDates_strictly_increasing|].
  intros d. unfold common_dates. rewrite IntersectDates_elem_of.
  apply fetch_bars_Forall2 in Hfetch.
  pose proof (required_symbols_ge_3 config) as Hreq.
  split.
  - intros [_ Hall] symbol Hs.
    apply list_elem_of_lookup in Hs as [k Hk].
    destruct (Forall2_lookup_l _ _ _ _ _ Hfetch Hk) as (kvp & Hkvp & bars & Hbars & ->).
    exists bars. split; [exact Hbars|].
    assert (Hd : d ∈ map Date (OrderBy Date bars)).
    { apply Hall. apply list_elem_of_fmap. exists (symbol, OrderBy Date bars).
      split; [reflexivity|]. apply list_elem_of_lookup. exists k. exact Hkvp. }
    rewrite (OrderBy_Permutation Date bars) in Hd. exact Hd.
  - intros Hall. split.
    + intros Hnil. apply Forall2_length in Hfetch.
      destruct barsBySymbol; [|discriminate]. simpl in Hfetch. lia.
    + intros c Hc. apply list_elem_of_fmap in Hc as [kvp [-> Hkvp]].
      apply list_elem_of_lookup in Hkvp as [k Hk].
      destruct (Forall2_lookup_r _ _ _ _ _ Hfetch Hk) as (symbol & Hsymbol & bars & Hbars & ->).
      simpl. rewrite (OrderBy_Permutation Date bars).
      destruct (Hall symbol) as (bars' & Hbars' & Hd).
      { apply list_elem_of_lookup. exists k. exact Hsymbol. }
      rewrite Hbars in Hbars'. injection Hbars' as <-. exact Hd.
Qed.

Lemma calendar_is_intersection_of_symbol_dates_witness :
  let services := Scenario.services Scenario.quiet_env 10 9 in
  let r := Scenario.result_of (RunAsync services Scenario.end_to_end) in
  RunAsync services Scenario.end_to_end = Ok r /\
  exists calendar : list DateOnly,
    ProgressDates r = drop (Z.to_nat (first_simulated Scenario.end_to_end)) calendar /\
    StronglySorted Z.lt calendar /\
    forall d : DateOnly,
      d ∈ calendar <->
      forall symbol, symbol ∈ normalize_symbols (Symbols Scenario.end_to_end) ->
        exists bars,
          GetBarsAsync services symbol (StartDate Scenario.end_to_end)
            (EndDate Scenario.end_to_end) = Ok bars /\
          d ∈ map Date bars.
Proof.
  intros services r.
  assert (Hrun : RunAsync services Scenario.end_to_end = Ok r)
    by (vm_compute; reflexivity).
  split; [exact Hrun|].
  exact (calendar_is_intersection_of_symbol_dates services Scenario.end_to_end r Hrun).
Defined.

(** C1 as stated fails: with benchmark bars that stop one day early, the
    last trading day of the symbols is still simulated. *)
Lemma calendar_keeps_a_date_the_benchmark_lacks :
  let services := Scenario.services Scenario.quiet_env 10 9 in
  exists (r : BacktestResult) (benchmark : list PriceBar) (d : DateOnly),
    RunAsync services Scenario.end_to_end = Ok r /\
    GetBarsAsync services "SPY" (StartDate Scenario.end_to_end)
      (EndDate Scenario.end_to_end) = Ok benchmark /\
    d ∈ ProgressDates r /\
    d ∉ map Date benchmark.
Proof.
  intros services.
  exists (Scenario.result_of (RunAsync services Scenario.end_to_end)),
         (Scenario.bars 5 9), (Scenario.first_day + 9).
  split; [vm_compute; reflexivity|].
  split; [reflexivity|].
  split.
  - apply (bool_decide_unpack _). vm_compute. exact I.
  - apply (bool_decide_unpack _). vm_compute. exact I.
Qed.

(** ** The date coverage check *)

(** C2, as the code has it: once the symbols are accepted and the bars
    fetched, the run fails with the date coverage error exactly when the
    calendar has at most [LookbackDays + 2] dates, and otherwise goes on
    with the close map, the strategy service and the loop. *)
Theorem coverage_check_rejects_up_to_lookback_plus_2 (services : Services)
    (config : BacktestConfig) (barsBySymbol : BarsBySymbol)
    (benchmarkFetched : list PriceBar) :
  required_symbols config <= Z.of_nat (length (normalize_symbols (Symbols config))) ->
  fetch_bars services config (normalize_symbols (Symbols config)) = Ok barsBySymbol ->
  GetBarsAsync services "SPY" (StartDate config) (EndDate config) = Ok benchmarkFetched ->
  - 2 ^ 31 <= LookbackDays config < 2 ^ 31 - 2 ->
  RunAsync services config =
    if Z.of_nat (length (common_dates barsBySymbol)) <=? LookbackDays config + 2 then
      Throw (InvalidOperationException
               "Insufficient overlapping date coverage across symbols.")
    else
      run_prepared services config (normalize_symbols (Symbols config)) barsBySymbol
        (OrderBy Date benchmarkFetched) (common_dates barsBySymbol).
Proof.
  intros Hsym Hfetch Hspy Hrange. unfold RunAsync, run_with_symbols.
  destruct (Z.ltb_spec (Z.of_nat (length (normalize_symbols (Symbols config))))
              (required_symbols config)); [lia|].
  rewrite Hfetch, Hspy. simpl.
  rewrite int32_small by lia. reflexivity.
Qed.

Lemma coverage_check_rejects_up_to_lookback_plus_2_witness :
  let services := Scenario.services Scenario.quiet_env 8 8 in
  let config := Scenario.end_to_end in
  let barsBySymbol :=
    value_or [] (fetch_bars services config (normalize_symbols (Symbols config))) in
  Z.of_nat (length (common_dates barsBySymbol)) = LookbackDays config + 3 /\
  RunAsync services config =
    run_prepared services config (normalize_symbols (Symbols config)) barsBySymbol
      (OrderBy Date (Scenario.bars 5 8)) (common_dates barsBySymbol).
Proof.
  intros services config barsBySymbol.
  split; [vm_compute; reflexivity|].
  rewrite (coverage_check_rejects_up_to_lookback_plus_2 services config barsBySymbol
             (Scenario.bars 5 8)).
  - reflexivity.
  - vm_compute. discriminate.
  - vm_compute. reflexivity.
  - reflexivity.
  - vm_compute. split; [discriminate | reflexivity].
Defined.

(** C2 as stated fails: a calendar of exactly [LookbackDays + 2] dates is
    rejected. *)
Lemma calendar_of_lookback_plus_2_dates_is_rejected :
  let services := Scenario.services Scenario.quiet_env 7 7 in
  let config := Scenario.end_to_end in
  exists barsBySymbol,
    fetch_bars services config (normalize_symbols (Symbols config)) = Ok barsBySymbol /\
    Z.of_nat (length (common_dates barsBySymbol)) = LookbackDays config + 2 /\
    RunAsync services config =
      Throw (InvalidOperationException
               "Insufficient overlapping date coverage across symbols.").
Proof.
  intros services config.
  exists (value_or [] (fetch_bars services config (normalize_symbols (Symbols config)))).
  split; [vm_compute; reflexivity|].
  split; vm_compute; reflexivity.
Qed.

(** The loop only starts inside the calendar at a non-negative index. *)
Lemma simulate_starts_in_range (services : Services) (config : BacktestConfig)
    (symbols : list string) (commonDates : list DateOnly) (closeMap : CloseMap)
    (pythonSignals : option SignalTable) (initial : gmap string Z) (final : LoopState) :
  simulate services config symbols commonDates closeMap pythonSignals initial = Ok final ->
  first_simulated config < Z.of_nat (length commonDates) ->
  0 <= first_simulated config.
Proof.
  unfold simulate. intros Hsim Hlt.
  apply simulate_from_inv in Hsim as (records & _ & _ & _ & Hprog & _); [|lia].
  apply Hprog, Hlt.
Qed.

(** A run that completes has simulated at least two days: one more than a
    calendar of [LookbackDays + 2] dates would give. *)
Lemma completed_run_simulates_at_least_two_days (services : Services)
    (config : BacktestConfig) (r : BacktestResult) :
  - 2 ^ 31 <= LookbackDays config < 2 ^ 31 - 2 ->
  RunAsync services config = Ok r ->
  (2 <= length (ProgressDates r))%nat.
Proof.
  intros Hrange Hrun. apply RunAsync_Ok_inv in Hrun.
  destruct Hrun as (barsBySymbol & benchmarkFetched & closeMap & pythonResult & scoring
                    & initial & final & _ & _ & _ & Hdates & _ & _ & _ & _ & Hsim & ->).
  simpl. rewrite int32_small in Hdates by lia.
  assert (Hfirst : first_simulated config = LookbackDays config + 1)
    by (unfold first_simulated; apply int32_small; lia).
  pose proof (simulate_starts_in_range _ _ _ _ _ _ _ _ Hsim ltac:(lia)) as Hnonneg.
  apply simulate_inv in Hsim as (Hprog & _ & _).
  rewrite Hprog, length_drop. lia.
Qed.

(** ** Symbol normalization *)

Lemma normalize_symbols_elem_of (raw : list string) (s : string) :
  s ∈ normalize_symbols raw <->
  exists x, x ∈ raw /\ s = ToUpperInvariant (Trim x) /\ IsNullOrWhiteSpace (Some s) = false.
Proof.
  unfold normalize_symbols.
  rewrite Distinct_elem_of, list_elem_of_In, filter_In, <- list_elem_of_In.
  rewrite list_elem_of_fmap, negb_true_iff. split.
  - intros [(x & -> & Hx) Hb]. exists x. auto.
  - intros (x & Hx & -> & Hb). split; [exists x; auto | exact Hb].
Qed.

Lemma normalize_symbols_length_le (raw : list string) :
  (length (normalize_symbols raw) <= length raw)%nat.
Proof.
  unfold normalize_symbols.
  etransitivity; [apply Distinct_length_le|].
  etransitivity; [apply filter_length_le|].
  rewrite length_map. reflexivity.
Qed.

(** C9: the symbol count check looks at the normalized list (each entry
    trimmed and upper-cased, blank entries dropped, duplicates removed),
    so spellings of one symbol count once, and a raw list long enough can
    still be rejected. *)
Theorem symbol_count_check_uses_normalized_symbols (services : Services)
    (config : BacktestConfig) :
  let symbols := normalize_symbols (Symbols config) in
  RunAsync services config =
    (if Z.of_nat (length symbols)
          <? Z.max 3 (int32 (LongCount config + ShortCount config))
     then Throw (InvalidOperationException
                   "Not enough symbols provided for long/short selection.")
     else run_with_symbols services config symbols) /\
  NoDup symbols /\
  (length symbols <= length (Symbols config))%nat /\
  (forall s, s ∈ symbols <->
     exists x, x ∈ Symbols config /\ s = ToUpperInvariant (Trim x) /\
               IsNullOrWhiteSpace (Some s) = false) /\
  exists (services' : Services) (config' : BacktestConfig),
    Symbols config' = [" aapl"; "AAPL "; "msft"; "   "; "Msft"; "aapl"]%string /\
    normalize_symbols (Symbols config') = ["AAPL"; "MSFT"]%string /\
    Z.max 3 (int32 (LongCount config' + ShortCount config'))
      <= Z.of_nat (length (Symbols config')) /\
    RunAsync services' config' =
      Throw (InvalidOperationException
               "Not enough symbols provided for long/short selection.").
Proof.
  intros symbols. split; [|split; [|split; [|split]]].
  - unfold RunAsync, required_symbols. rewrite Math_Max_spec. reflexivity.
  - apply Distinct_NoDup.
  - apply normalize_symbols_length_le.
  - apply normalize_symbols_elem_of.
  - exists (Scenario.services Scenario.quiet_env 40 40),
           (Scenario.config [" aapl"; "AAPL "; "msft"; "   "; "Msft"; "aapl"]%string
              5 5 2 1 None false).
    split; [reflexivity|]. split; [vm_compute; reflexivity|].
    split; [vm_compute; discriminate | vm_compute; reflexivity].
Qed.

(** ** The rebalance cadence *)

(** C10: with a cadence of zero or less the divisor of the boundary test
    is 1, never 0, so every index passes the test and a loop that runs to
    the end has rebalanced on every simulated day. *)
Theorem nonpositive_cadence_rebalances_every_day (config : BacktestConfig) :
  RebalanceFrequencyDays config <= 0 ->
  Math_Max 1 (RebalanceFrequencyDays config) = 1 /\
  (forall i : Z, isRebalance config i = true) /\
  forall services symbols commonDates closeMap pythonSignals initial final,
    simulate services config symbols commonDates closeMap pythonSignals initial
      = Ok final ->
    map rebalance_index (rebalances final) = simulated_days config (length commonDates).
Proof.
  intros Hfreq.
  assert (Hdiv : Math_Max 1 (RebalanceFrequencyDays config) = 1)
    by (rewrite Math_Max_spec; lia).
  assert (Hall : forall i : Z, isRebalance config i = true).
  { intros i. unfold isRebalance. rewrite Hdiv, Z.rem_1_r. reflexivity. }
  split; [exact Hdiv|]. split; [exact Hall|].
  intros services symbols commonDates closeMap pythonSignals initial final Hsim.
  apply simulate_inv in Hsim as (_ & Hidx & _). rewrite Hidx.
  generalize (simulated_days config (length commonDates)). clear Hidx.
  intros l. induction l as [|i l IH]; simpl.
  - reflexivity.
  - rewrite Hall, IH. reflexivity.
Qed.

Lemma nonpositive_cadence_rebalances_every_day_witness :
  let config := Scenario.config Scenario.universe 5 0 2 1 None false in
  RebalanceFrequencyDays config <= 0 /\
  Math_Max 1 (RebalanceFrequencyDays config) = 1 /\
  (forall i : Z, isRebalance config i = true) /\
  forall services symbols commonDates closeMap pythonSignals initial final,
    simulate services config symbols commonDates closeMap pythonSignals initial
      = Ok final ->
    map rebalance_index (rebalances final) = simulated_days config (length commonDates).
Proof.
  intros config.
  assert (Hfreq : RebalanceFrequencyDays config <= 0) by (simpl; lia).
  split; [exact Hfreq|].
  exact (nonpositive_cadence_rebalances_every_day config Hfreq).
Defined.

(** The divisor of the boundary test is at least 1 whatever the cadence. *)
Lemma rebalance_divisor_positive (config : BacktestConfig) :
  1 <= Math_Max 1 (RebalanceFrequencyDays config).
Proof. rewrite Math_Max_spec. lia. Qed.

(** ** The end-to-end scenario *)

Lemma service_without_code (env : SandboxEnv) (config : BacktestConfig)
    (dates : list DateOnly) (barsBySymbol : BarsBySymbol) :
  IsNullOrWhiteSpace (StrategyCode config) = true ->
  PythonStrategyService env config dates barsBySymbol
    = Ok {| Execution := summary_not_requested; Signals := None |}.
Proof.
  intros Hcode. unfold PythonStrategyService, BuildSignalsByDateAsync.
  rewrite Hcode. reflexivity.
Qed.

Lemma choose_ranked_without_signals (symbols : list string) (date : DateOnly)
    (defaultRanked : list (string * Z)) :
  choose_ranked None symbols date defaultRanked = (false, defaultRanked).
Proof. reflexivity. Qed.

(** Without custom signals every logged rebalance used the built-in
    ranking of its date. *)
Lemma rebalance_ok_without_signals (config : BacktestConfig) (symbols : list string)
    (commonDates : list DateOnly) (closeMap : CloseMap) (record : RebalanceRecord) :
  rebalance_ok config symbols commonDates closeMap None record ->
  rebalance_custom record = false /\
  exists lookbackDate,
    item commonDates (int32 (rebalance_index record - LookbackDays config))
      = Ok lookbackDate /\
    default_ranked closeMap symbols lookbackDate (rebalance_date record)
      = Ok (rebalance_ranked record).
Proof.
  intros (_ & _ & lookbackDate & defaultRanked & Hlb & Hdef & Hch & _).
  rewrite choose_ranked_without_signals in Hch. injection Hch as <- <-.
  split; [reflexivity|]. exists lookbackDate. auto.
Qed.

(** C3, as the code has it: with a lookback of 5, a cadence of 5, no
    scoring code and 40 aligned dates, a run that completes simulates the
    34 indices 6..39 and rebalances at the six indices 10, 15, ..., 35, each
    time ranking by the built-in return over the 5 preceding days. *)
Theorem end_to_end_scenario_rebalances_at_six_boundaries
    (market : string -> DateOnly -> DateOnly -> Outcome (list PriceBar))
    (env : SandboxEnv) (cancelled : Z -> bool)
    (config : BacktestConfig) (barsBySymbol : BarsBySymbol) (r : BacktestResult) :
  let services :=
    {| GetBarsAsync := market; BuildSignals := PythonStrategyService env;
       IsCancellationRequested := cancelled |} in
  let symbols := normalize_symbols (Symbols config) in
  LookbackDays config = 5 ->
  RebalanceFrequencyDays config = 5 ->
  IsNullOrWhiteSpace (StrategyCode config) = true ->
  fetch_bars services config symbols = Ok barsBySymbol ->
  length (common_dates barsBySymbol) = 40%nat ->
  RunAsync services config = Ok r ->
  List.filter (isRebalance config) (simulated_days config 40) = [10; 15; 20; 25; 30; 35] /\
  map rebalance_index (Rebalances r) = [10; 15; 20; 25; 30; 35] /\
  length (ProgressDates r) = 34%nat /\
  exists closeMap,
    build_closeMap barsBySymbol ∅ = Ok closeMap /\
    Forall (fun record =>
              rebalance_custom record = false /\
              exists lookbackDate,
                item (common_dates barsBySymbol) (rebalance_index record - 5)
                  = Ok lookbackDate /\
                item (common_dates barsBySymbol) (rebalance_index record)
                  = Ok (rebalance_date record) /\
                default_ranked closeMap symbols lookbackDate (rebalance_date record)
                  = Ok (rebalance_ranked record))
           (Rebalances r).
Proof.
  intros services symbols Hlookback Hcadence Hcode Hfetch Hcount Hrun.
  assert (Hdays : List.filter (isRebalance config) (simulated_days config 40)
                  = [10; 15; 20; 25; 30; 35]).
  { unfold simulated_days, first_simulated, isRebalance.
    rewrite Hlookback, Hcadence. vm_compute. reflexivity. }
  apply RunAsync_Ok_inv in Hrun.
  destruct Hrun as (barsBySymbol' & benchmarkFetched & closeMap & pythonResult & scoring
                    & initial & final & _ & Hfetch' & _ & _ & Hclose & Hpy & Hres & _
                    & Hsim & ->).
  fold symbols in Hfetch', Hsim. rewrite Hfetch in Hfetch'. injection Hfetch' as <-.
  simpl in Hpy. rewrite service_without_code in Hpy by exact Hcode.
  injection Hpy as <-. unfold resolve_scoring in Hres. simpl in Hres.
  injection Hres as <-. simpl in Hsim.
  apply simulate_inv in Hsim as (Hprog & Hidx & Hok).
  rewrite Hcount, Hdays in Hidx. simpl.
  split; [exact Hdays|]. split; [exact Hidx|].
  split.
  { rewrite Hprog, length_drop, Hcount. unfold first_simulated.
    rewrite Hlookback. vm_compute. reflexivity. }
  exists closeMap. split; [exact Hclose|].
  assert (Hbounds : Forall (fun record => 10 <= rebalance_index record <= 35)
                           (rebalances final)).
  { apply (Forall_fmap rebalance_index (fun i => 10 <= i <= 35)).
    change (Forall (fun i => 10 <= i <= 35) (map rebalance_index (rebalances final))).
    rewrite Hidx. repeat constructor; lia. }
  rewrite Forall_forall in *. intros record Hrec.
  specialize (Hbounds record Hrec).
  destruct (Hok record Hrec) as (_ & Hdate & _).
  destruct (rebalance_ok_without_signals _ _ _ _ _ (Hok record Hrec))
    as (Hcustom & lookbackDate & Hlb & Hdef).
  split; [exact Hcustom|]. exists lookbackDate.
  rewrite Hlookback, int32_small in Hlb by lia. auto.
Qed.

Lemma end_to_end_scenario_rebalances_at_six_boundaries_witness :
  let services := Scenario.services Scenario.quiet_env 40 40 in
  let config := Scenario.end_to_end in
  let barsBySymbol :=
    value_or [] (fetch_bars services config (normalize_symbols (Symbols config))) in
  let r := Scenario.result_of (RunAsync services config) in
  length (common_dates barsBySymbol) = 40%nat /\
  RunAsync services config = Ok r /\
  map rebalance_index (Rebalances r) = [10; 15; 20; 25; 30; 35] /\
  length (ProgressDates r) = 34%nat.
Proof.
  intros services config barsBySymbol r.
  assert (Hcount : length (common_dates barsBySymbol) = 40%nat)
    by (vm_compute; reflexivity).
  assert (Hrun : RunAsync services config = Ok r) by (vm_compute; reflexivity).
  split; [exact Hcount|]. split; [exact Hrun|].
  destruct (end_to_end_scenario_rebalances_at_six_boundaries
              (Scenario.market 40 40) Scenario.quiet_env (fun _ => false)
              config barsBySymbol r) as (_ & Hidx & Hprog & _).
  - reflexivity.
  - reflexivity.
  - reflexivity.
  - vm_compute. reflexivity.
  - exact Hcount.
  - exact Hrun.
  - split; [exact Hidx | exact Hprog].
Defined.

(** C3 as stated fails: in the scenario the boundary test holds on six of
    the simulated days, and six rebalances are performed, not seven. *)
Lemma end_to_end_scenario_has_no_seventh_boundary :
  let services := Scenario.services Scenario.quiet_env 40 40 in
  let config := Scenario.end_to_end in
  exists r,
    RunAsync services config = Ok r /\
    length (List.filter (isRebalance config) (simulated_days config 40)) = 6%nat /\
    length (Rebalances r) = 6%nat /\
    length (Rebalances r) <> 7%nat.
Proof.
  intros services config.
  exists (Scenario.result_of (RunAsync services config)).
  split; [vm_compute; reflexivity|].
  split; [vm_compute; reflexivity|].
  split; [vm_compute; reflexivity|].
  vm_compute. discriminate.
Qed.

(** ** Decimal quotients of one *)










(** ** Weights after a rebalance *)
















(** ** Parameter validation *)

(** Induction over JSON values, children first. *)
Lemma JsonElement_nested_ind (P : JsonElement -> Prop) :
  P JsonUndefined -> P JsonNull -> P JsonTrue -> P JsonFalse ->
  (forall text, P (JsonNumber text)) ->
  (forall s, P (JsonString s)) ->
  (forall items, Forall P items -> P (JsonArray items)) ->
  (forall properties, Forall (fun p => P (snd p)) properties -> P (JsonObject properties)) ->
  forall v, P v.
Proof.
  intros Hu Hn Ht Hf Hnum Hstr Harr Hobj.
  fix IH 1. intros [| | | |text|s|items|properties].
  - exact Hu.
  - exact Hn.
  - exact Ht.
  - exact Hf.
  - apply Hnum.
  - apply Hstr.
  - apply Harr. induction items as [|x items IHitems]; constructor; [apply IH | exact IHitems].
  - apply Hobj. induction properties as [|p properties IHprops]; constructor;
      [apply IH | exact IHprops].
Qed.

(** A value with a node deeper than the ceiling fails the walk, whatever
    the node count so far. *)
Lemma Traverse_too_deep (maxDepth maxNodes : Z) (v : JsonElement) :
  0 <= maxDepth < 2 ^ 31 - 1 ->
  forall depth visited,
    0 <= depth ->
    maxDepth < depth + Z.of_nat (nesting_depth v) ->
    fst (Traverse maxDepth maxNodes v depth visited) = false.
Proof.
  intros Hmax. induction v as [| | | |text|s|items IHitems|properties IHprops]
    using JsonElement_nested_ind; intros depth visited Hdepth Hdeep;
    try (simpl in *;
         destruct (maxNodes <? int32 (visited + 1)); simpl; [reflexivity|];
         destruct (Z.ltb_spec maxDepth depth); [reflexivity | lia]).
  - simpl in *.
    destruct (maxNodes <? int32 (visited + 1)); simpl; [reflexivity|].
    destruct (Z.ltb_spec maxDepth depth) as [|Hle]; [reflexivity|].
    rewrite (int32_small (depth + 1)) by lia.
    generalize (int32 (visited + 1)) as counted.
    induction IHitems as [|x items Hx _ IHrest]; intros counted; simpl in *; [lia|].
    destruct (Traverse maxDepth maxNodes x (depth + 1) counted) as [ok counted'] eqn:Hwalk.
    destruct ok; [|reflexivity].
    apply IHrest.
    destruct (Z.le_gt_cases (depth + 1 + Z.of_nat (nesting_depth x)) maxDepth)
      as [Hshallow|Hdeepx]; [lia|].
    specialize (Hx (depth + 1) counted ltac:(lia) ltac:(lia)).
    rewrite Hwalk in Hx. discriminate.
  - simpl in *.
    destruct (maxNodes <? int32 (visited + 1)); simpl; [reflexivity|].
    destruct (Z.ltb_spec maxDepth depth) as [|Hle]; [reflexivity|].
    rewrite (int32_small (depth + 1)) by lia.
    generalize (int32 (visited + 1)) as counted.
    induction IHprops as [|p properties Hp _ IHrest]; intros counted; simpl in *; [lia|].
    destruct (Traverse maxDepth maxNodes (snd p) (depth + 1) counted)
      as [ok counted'] eqn:Hwalk.
    destruct ok; [|reflexivity].
    apply IHrest.
    destruct (Z.le_gt_cases (depth + 1 + Z.of_nat (nesting_depth (snd p))) maxDepth)
      as [Hshallow|Hdeepp]; [lia|].
    specialize (Hp (depth + 1) counted ltac:(lia) ltac:(lia)).
    rewrite Hwalk in Hp. discriminate.
Qed.

Lemma IsWithinDepthAndSize_too_deep (value : JsonElement) :
  (9 <= nesting_depth value)%nat -> IsWithinDepthAndSize value 8 10000 = false.
Proof.
  intros Hdeep. unfold IsWithinDepthAndSize.
  apply Traverse_too_deep; [split; [lia | vm_compute; reflexivity] | lia | lia].
Qed.

Lemma ValidateParams_each_rejects (entries : list (string * JsonElement))
    (key : string) (value : JsonElement) :
  (key, value) ∈ entries ->
  IsWithinDepthAndSize value 8 10000 = false ->
  exists message, ValidateParams_each entries = Some message.
Proof.
  intros Hin Hbad. induction entries as [|[k v] entries IH]; [inversion Hin|].
  cbn [ValidateParams_each].
  destruct (120 <? Z.of_nat (String.length k)); [eexists; reflexivity|].
  destruct (negb (IsWithinDepthAndSize v 8 10000)) eqn:Hv; [eexists; reflexivity|].
  apply elem_of_cons in Hin as [[= <- <-]|Hin]; [|apply IH, Hin].
  rewrite Hbad in Hv. discriminate.
Qed.

(** C8: when scoring code is supplied, a parameter holding a value nested
    to depth 9 or more (the value itself being at depth 0, the ceiling 8)
    makes the service answer with a validation failure, having created no
    directory, written no file and started no process. *)
Theorem deep_parameter_is_rejected_before_any_effect (env : SandboxEnv)
    (config : BacktestConfig) (dates : list DateOnly) (barsBySymbol : BarsBySymbol)
    (entries : list (string * JsonElement)) (key : string) (value : JsonElement) :
  IsNullOrWhiteSpace (StrategyCode config) = false ->
  StrategyParams config = Some entries ->
  (key, value) ∈ entries ->
  (9 <= nesting_depth value)%nat ->
  exists message,
    BuildSignalsByDateAsync env config dates barsBySymbol [] =
      ([], Ok {| Execution :=
                   {| Requested := true; Executed := false; Succeeded := false;
                      UsedFallback := false; Message := message; SignalDates := 0;
                      StderrSnippet := None; ErrorType := Some "validation" |};
                 Signals := None |}).
Proof.
  intros Hcode Hparams Hin Hdeep. unfold BuildSignalsByDateAsync.
  rewrite Hcode.
  destruct (200000 <? Z.of_nat (String.length (default EmptyString (StrategyCode config))));
    [eexists; reflexivity|].
  rewrite Hparams. unfold ValidateParams.
  destruct (200 <? Z.of_nat (length entries)); [eexists; reflexivity|].
  destruct (ValidateParams_each_rejects entries key value Hin
              (IsWithinDepthAndSize_too_deep value Hdeep)) as [message ->].
  eexists. reflexivity.
Qed.

Lemma deep_parameter_is_rejected_before_any_effect_witness :
  let config :=
    {| Symbols := Scenario.universe; StartDate := 0; EndDate := 0;
       InitialCapital := 0; LookbackDays := 5; RebalanceFrequencyDays := 5;
       LongCount := 2; ShortCount := 1;
       StrategyCode := Some Scenario.strategy_source;
       StrategyParams := Some [("window"%string, Scenario.nested 9)];
       FallbackToBuiltinOnPythonError := false |} in
  nesting_depth (Scenario.nested 9) = 9%nat /\
  exists message,
    BuildSignalsByDateAsync Scenario.quiet_env config [] [] [] =
      ([], Ok {| Execution :=
                   {| Requested := true; Executed := false; Succeeded := false;
                      UsedFallback := false; Message := message; SignalDates := 0;
                      StderrSnippet := None; ErrorType := Some "validation" |};
                 Signals := None |}).
Proof.
  intros config. split; [reflexivity|].
  apply (deep_parameter_is_rejected_before_any_effect Scenario.quiet_env config [] []
           [("window"%string, Scenario.nested 9)] "window" (Scenario.nested 9)).
  - reflexivity.
  - reflexivity.
  - left.
  - simpl. lia.
Defined.

(** The ceiling is inclusive: a value nested to depth 8 passes the walk. *)
Example depth_8_is_accepted : IsWithinDepthAndSize (Scenario.nested 8) 8 10000 = true.
Proof. vm_compute. reflexivity. Qed.

(** ** Scoring failures *)

Lemma finish_run_inv (services : Services) (config : BacktestConfig)
    (symbols : list string) (benchmarkBars : list PriceBar)
    (commonDates : list DateOnly) (closeMap : CloseMap)
    (pythonExecution : PythonExecutionSummary) (pythonSignals : option SignalTable)
    (r : BacktestResult) :
  finish_run services config symbols benchmarkBars commonDates closeMap
    pythonExecution pythonSignals = Ok r ->
  PythonExecution r = pythonExecution /\
  Forall (rebalance_ok config symbols commonDates closeMap pythonSignals) (Rebalances r).
Proof.
  unfold finish_run. intros Hrun.
  destruct (ToDictionary Date Close benchmarkBars) as [benchmarkMap|];
    simpl in Hrun; [|discriminate].
  destruct (benchmark_start benchmarkBars benchmarkMap commonDates) as [benchmarkStart|];
    simpl in Hrun; [|discriminate].
  destruct (ToDictionary id (fun _ : string => 0) symbols) as [initial|];
    simpl in Hrun; [|discriminate].
  destruct (simulate services config symbols commonDates closeMap pythonSignals initial)
    as [final|] eqn:Hsim; simpl in Hrun; [|discriminate].
  injection Hrun as <-. simpl. split; [reflexivity|].
  apply simulate_inv in Hsim as (_ & _ & Hok). exact Hok.
Qed.

(** C5: when the strategy service reports a requested, unsuccessful
    execution, a run that tolerates failures goes on without any custom
    signals and with the summary marked as fallback, so that every rebalance
    of a result it returns used the built-in ranking; a run that does not
    tolerate them throws, with the error kind, the message and the stderr
    excerpt in the text, and returns no result. *)
Theorem scoring_failure_policy (services : Services) (config : BacktestConfig)
    (symbols : list string) (barsBySymbol : BarsBySymbol)
    (benchmarkBars : list PriceBar) (commonDates : list DateOnly)
    (closeMap : CloseMap) (pythonResult : PythonSignalsResult) :
  build_closeMap barsBySymbol ∅ = Ok closeMap ->
  BuildSignals services config commonDates barsBySymbol = Ok pythonResult ->
  Requested (Execution pythonResult) = true ->
  Succeeded (Execution pythonResult) = false ->
  let execution := Execution pythonResult in
  let run := run_prepared services config symbols barsBySymbol benchmarkBars commonDates in
  if FallbackToBuiltinOnPythonError config then
    run = finish_run services config symbols benchmarkBars commonDates closeMap
            (with_fallback execution) None /\
    UsedFallback (with_fallback execution) = true /\
    Message (with_fallback execution)
      = Message execution +:+ " Falling back to built-in momentum ranking." /\
    forall r,
      run = Ok r ->
      PythonExecution r = with_fallback execution /\
      Forall (fun record =>
                rebalance_custom record = false /\
                exists lookbackDate,
                  item commonDates (int32 (rebalance_index record - LookbackDays config))
                    = Ok lookbackDate /\
                  default_ranked closeMap symbols lookbackDate (rebalance_date record)
                    = Ok (rebalance_ranked record))
             (Rebalances r)
  else
    run = Throw (InvalidOperationException
                   ("Python strategy failed (" +:+ default "error" (ErrorType execution)
                    +:+ "): " +:+ Message execution +:+ "."
                    +:+ (if IsNullOrWhiteSpace (StderrSnippet execution) then EmptyString
                         else " stderr: " +:+ default EmptyString (StderrSnippet execution)))).
Proof.
  intros Hclose Hpy Hrequested Hfailed execution run.
  assert (Hrun : run = let! scoring := resolve_scoring config pythonResult in
                       finish_run services config symbols benchmarkBars commonDates
                         closeMap (fst scoring) (snd scoring)).
  { unfold run, run_prepared. rewrite Hclose, Hpy. reflexivity. }
  unfold resolve_scoring in Hrun. rewrite Hrequested, Hfailed in Hrun. simpl in Hrun.
  destruct (FallbackToBuiltinOnPythonError config); simpl in Hrun.
  - split; [exact Hrun|]. split; [reflexivity|]. split; [reflexivity|].
    intros r Hr. rewrite Hrun in Hr. apply finish_run_inv in Hr as [Hsummary Hok].
    split; [exact Hsummary|].
    eapply Forall_impl; [exact Hok|]. intros record.
    apply rebalance_ok_without_signals.
  - exact Hrun.
Qed.

Lemma scoring_failure_policy_witness :
  let services := Scenario.services Scenario.crashing_env 40 40 in
  let config :=
    Scenario.config Scenario.universe 5 5 2 1 (Some Scenario.strategy_source) true in
  let r := Scenario.result_of (RunAsync services config) in
  RunAsync services config = Ok r /\
  PythonExecution r =
    {| Requested := true; Executed := true; Succeeded := false; UsedFallback := true;
       Message := "Python strategy exited with non-zero status. Falling back to built-in momentum ranking.";
       SignalDates := 0;
       StderrSnippet := Some "ZeroDivisionError: division by zero";
       ErrorType := Some "runtime" |} /\
  length (Rebalances r) = 6%nat /\
  Forall (fun record => rebalance_custom record = false) (Rebalances r).
Proof.
  intros services config r.
  set (symbols := normalize_symbols (Symbols config)).
  set (barsBySymbol := value_or [] (fetch_bars services config symbols)).
  set (benchmarkBars := OrderBy Date (Scenario.bars 5 40)).
  set (commonDates := common_dates barsBySymbol).
  set (closeMap := value_or ∅ (build_closeMap barsBySymbol ∅)).
  set (pythonResult :=
         value_or Scenario.no_signals
           (BuildSignals services config commonDates barsBySymbol)).
  assert (Hrun : RunAsync services config = Ok r) by (vm_compute; reflexivity).
  assert (Hprepared :
            run_prepared services config symbols barsBySymbol benchmarkBars commonDates
            = Ok r) by (vm_compute; reflexivity).
  pose proof (scoring_failure_policy services config symbols barsBySymbol benchmarkBars
                commonDates closeMap pythonResult) as Hpolicy.
  simpl in Hpolicy.
  destruct Hpolicy as (_ & _ & _ & Hresult).
  - vm_compute. reflexivity.
  - vm_compute. reflexivity.
  - vm_compute. reflexivity.
  - vm_compute. reflexivity.
  - destruct (Hresult r Hprepared) as [Hsummary Hbuiltin].
    split; [exact Hrun|].
    split; [rewrite Hsummary; vm_compute; reflexivity|].
    split; [vm_compute; reflexivity|].
    eapply Forall_impl; [exact Hbuiltin|]. intros record [Hcustom _]. exact Hcustom.
Defined.

(** The same failure without tolerance: the run throws and has no result. *)
Example intolerant_run_fails_with_the_error_kind :
  RunAsync (Scenario.services Scenario.crashing_env 40 40)
    (Scenario.config Scenario.universe 5 5 2 1 (Some Scenario.strategy_source) false)
  = Throw (InvalidOperationException
             "Python strategy failed (runtime): Python strategy exited with non-zero status.. stderr: ZeroDivisionError: division by zero").
Proof. vm_compute. reflexivity. Qed.

(** ** The sandbox boundary *)

(** An exception raised inside the [try] block is reported as the
    "exception" failure, and the temporary directory is deleted last. *)
Lemma exception_in_try_block_is_reported (env : SandboxEnv) (config : BacktestConfig)
    (dates : list DateOnly) (barsBySymbol : BarsBySymbol)
    (log : list Effect) (ex : Exn) :
  IsNullOrWhiteSpace (StrategyCode config) = false ->
  (200000 <? Z.of_nat (String.length (default EmptyString (StrategyCode config)))) = false ->
  ValidateParams (StrategyParams config) = None ->
  env_createDirectory env = Ok tt ->
  run_strategy_process env config dates barsBySymbol [CreateDirectory] = (log, Throw ex) ->
  BuildSignalsByDateAsync env config dates barsBySymbol [] =
    (log ++ [DeleteDirectory],
     Ok {| Execution :=
             {| Requested := true; Executed := false; Succeeded := false;
                UsedFallback := false;
                Message := "Python strategy execution failed unexpectedly.";
                SignalDates := 0;
                StderrSnippet := Some (Truncate (Exn_Message env ex) 3000);
                ErrorType := Some "exception" |};
           Signals := None |}).
Proof.
  intros Hcode Hsize Hparams Hdir Hbody. unfold BuildSignalsByDateAsync.
  rewrite Hcode, Hsize, Hparams.
  unfold io_bind, perform, io_finally, io_catch. rewrite Hdir. simpl.
  rewrite Hbody. reflexivity.
Qed.

(** The only exception that can leave the service is one thrown while the
    temporary directory is created, before the [try] block is entered. *)
Lemma sandbox_outcome_cases (env : SandboxEnv) (config : BacktestConfig)
    (dates : list DateOnly) (barsBySymbol : BarsBySymbol) :
  (exists log result,
     BuildSignalsByDateAsync env config dates barsBySymbol [] = (log, Ok result)) \/
  (exists ex,
     env_createDirectory env = Throw ex /\
     BuildSignalsByDateAsync env config dates barsBySymbol []
       = ([CreateDirectory], Throw ex)).
Proof.
  unfold BuildSignalsByDateAsync.
  destruct (IsNullOrWhiteSpace (StrategyCode config)); [left; eexists _, _; reflexivity|].
  destruct (200000 <? _); [left; eexists _, _; reflexivity|].
  destruct (ValidateParams (StrategyParams config)); [left; eexists _, _; reflexivity|].
  unfold io_bind, perform, io_finally, io_catch.
  destruct (env_createDirectory env) as [[]|ex]; simpl.
  - left.
    destruct (run_strategy_process env config dates barsBySymbol [CreateDirectory])
      as [log [result|ex]]; eexists _, _; reflexivity.
  - right. exists ex. split; reflexivity.
Qed.

(** C6, at an input where the code departs from it: the temporary
    directory cannot be created, the exception leaves
    [BuildSignalsByDateAsync] instead of becoming an "exception" outcome,
    and the run throws although it is configured to fall back. *)
Theorem directory_creation_failure_escapes_the_sandbox :
  let config :=
    Scenario.config Scenario.universe 5 5 2 1 (Some Scenario.strategy_source) true in
  BuildSignalsByDateAsync Scenario.read_only_env config [] [] []
    = ([CreateDirectory], Throw (CollaboratorException "Read-only file system")) /\
  RunAsync (Scenario.services Scenario.read_only_env 40 40) config
    = Throw (CollaboratorException "Read-only file system").
Proof.
  intros config. split; vm_compute; reflexivity.
Qed.

(** ** The timeout *)

(** C7: when the process has been started and the 15 second delay
    completes before the process exits, the service kills the process tree,
    deletes the temporary directory and returns the timeout failure
    without signals. *)
Theorem timeout_kills_the_process_and_returns_no_signals (env : SandboxEnv)
    (config : BacktestConfig) (dates : list DateOnly) (barsBySymbol : BarsBySymbol)
    (payload : InputPayload) :
  IsNullOrWhiteSpace (StrategyCode config) = false ->
  Z.of_nat (String.length (default EmptyString (StrategyCode config))) <= 200000 ->
  ValidateParams (StrategyParams config) = None ->
  env_createDirectory env = Ok tt ->
  (forall name, env_writeFile env name = Ok tt) ->
  BuildInputPayload config dates barsBySymbol = Ok payload ->
  env_processStart env = Ok tt ->
  env_first env = TimeoutTask ->
  BuildSignalsByDateAsync env config dates barsBySymbol [] =
    ([CreateDirectory; WriteFile "strategy.py"; WriteFile "strategy_params.json";
      WriteFile "strategy_input.json"; WriteFile "runner.py"; ProcessStart;
      ProcessKillTree; DeleteDirectory],
     Ok {| Execution :=
             {| Requested := true; Executed := true; Succeeded := false;
                UsedFallback := false;
                Message := "Python strategy timed out after 15 seconds.";
                SignalDates := 0; StderrSnippet := None;
                ErrorType := Some "timeout" |};
           Signals := None |}).
Proof.
  intros Hcode Hsize Hparams Hdir Hwrite Hpayload Hstart Hfirst.
  unfold BuildSignalsByDateAsync. rewrite Hcode.
  destruct (Z.ltb_spec 200000
              (Z.of_nat (String.length (default EmptyString (StrategyCode config)))));
    [lia|].
  rewrite Hparams.
  unfold run_strategy_process, io_bind, perform, io_finally, io_catch, io_lift, io_ret.
  rewrite Hdir, !Hwrite, Hpayload, Hstart, Hfirst. reflexivity.
Qed.

Lemma timeout_kills_the_process_and_returns_no_signals_witness :
  let config :=
    Scenario.config Scenario.universe 5 5 2 1 (Some Scenario.strategy_source) false in
  BuildSignalsByDateAsync Scenario.sleeping_env config [] [] [] =
    ([CreateDirectory; WriteFile "strategy.py"; WriteFile "strategy_params.json";
      WriteFile "strategy_input.json"; WriteFile "runner.py"; ProcessStart;
      ProcessKillTree; DeleteDirectory],
     Ok {| Execution :=
             {| Requested := true; Executed := true; Succeeded := false;
                UsedFallback := false;
                Message := "Python strategy timed out after 15 seconds.";
                SignalDates := 0; StderrSnippet := None;
                ErrorType := Some "timeout" |};
           Signals := None |}).
Proof.
  intros config.
  apply (timeout_kills_the_process_and_returns_no_signals Scenario.sleeping_env config
           [] [] (value_or (mkInputPayload [] [] [] ∅ ∅) (BuildInputPayload config [] []))).
  - reflexivity.
  - vm_compute. discriminate.
  - reflexivity.
  - reflexivity.
  - intros name. reflexivity.
  - reflexivity.
  - reflexivity.
  - reflexivity.
Defined.
